(** * limbus: the pipeline scheduler ([limbus/core/pipeline.py])

    A shallow embedding of the [Pipeline] class and of its state tracker
    [_PipelineState], followed by the properties of the scheduler that the
    specification states.

    Python integers are unbounded, so counters are in [Z].  The two
    [asyncio.Event] objects are booleans ([is_set]).  Component objects live
    in a store indexed by their identity, because the scheduler only holds
    references to them and mutates them through [set_state]. *)

From Stdlib Require Import ZArith.
From stdpp Require Import base gmap sets list strings.

Local Open Scope Z_scope.

(** ** Enumerations *)

(** Modelled from the spec: [limbus.core.states.PipelineState] is imported by
    the source but its declaration is not part of it; the members are the ones
    the specification lists, and the scheduler's code names every one of
    them. *)
Module PipelineState.
Inductive t : Set :=
| CREATED | INITIALIZING | RUNNING | PAUSED | FORCED_STOP | ERROR | ENDED.

#[global] Instance eq_dec : EqDecision t.
Proof. solve_decision. Defined.

(** [state.name], as an [Enum] member gives it. *)
Definition name (s : t) : string :=
  match s with
  | CREATED => "CREATED"
  | INITIALIZING => "INITIALIZING"
  | RUNNING => "RUNNING"
  | PAUSED => "PAUSED"
  | FORCED_STOP => "FORCED_STOP"
  | ERROR => "ERROR"
  | ENDED => "ENDED"
  end.
End PipelineState.

(** Modelled from the spec: [limbus.core.states.VerboseMode] is not part of
    the source; the specification asks for [DISABLED], a pipeline-level mode
    and a per-component mode, and the code names [DISABLED] and [COMPONENT]. *)
Module VerboseMode.
Inductive t : Set := DISABLED | PIPELINE | COMPONENT.

#[global] Instance eq_dec : EqDecision t.
Proof. solve_decision. Defined.
End VerboseMode.

(** Modelled from the spec: [limbus.core.component.ComponentState] is not part
    of the source.  The scheduler writes [PAUSED], [READY], [FORCED_STOP] and
    [STOPPED_AT_ITER]; [OWN n] stands for the states a component gives itself
    while it works. *)
Module ComponentState.
Inductive t : Set :=
| READY | PAUSED | FORCED_STOP | STOPPED_AT_ITER | OWN (n : nat).

#[global] Instance eq_dec : EqDecision t.
Proof. solve_decision. Defined.
End ComponentState.

(** ** Components *)

(** Modelled from the spec: the class [limbus.core.component.Component] is not
    part of the source.  The scheduler reads [counter] and
    [stopping_iteration], writes the state through [set_state], hands itself
    over through [set_pipeline] and sets [verbose]. *)
Module Component.
Record t : Set := mk {
  counter : Z;
  stopping_iteration : Z;
  state : ComponentState.t;
  pipeline : bool;   (* bound to the scheduler by [set_pipeline] *)
  verbose : bool
}.

Definition set_state (c : t) (s : ComponentState.t) : t :=
  mk (counter c) (stopping_iteration c) s (pipeline c) (verbose c).

Definition set_pipeline (c : t) : t :=
  mk (counter c) (stopping_iteration c) (state c) true (verbose c).

Definition set_verbose (c : t) (v : bool) : t :=
  mk (counter c) (stopping_iteration c) (state c) (pipeline c) v.
End Component.

(** ** The scheduler's objects *)

(** The fields of [_PipelineState]. *)
Module _PipelineState.
Record t : Set := mk {
  _state : PipelineState.t;
  _verbose : VerboseMode.t
}.
End _PipelineState.

(** The fields of [Pipeline]; [_nodes] is a set of component identities. *)
Record Pipeline : Set := mkPipeline {
  _nodes : gset nat;
  _resume_event : bool;
  _stop_event : bool;
  _state : _PipelineState.t;
  _counter : Z;
  _min_number_of_iters_to_run : Z
}.

(** What the scheduler does to the outside, in program order: the calls on
    its two events, the calls of the state tracker, the lines given to
    [log.info] and the states written into components.  The history is kept
    next to the objects so that "first ..., then ..." and "does not log" can
    be stated. *)
Inductive Effect : Set :=
| ResumeSet | ResumeClear | StopSet | StopClear
| Transition (s : PipelineState.t)
| LogInfo (line : string)
| SetState (component : nat) (s : ComponentState.t).

Record World : Type := mkWorld {
  self : Pipeline;
  heap : nat -> Component.t;
  trace : list Effect
}.

(** ** A state monad over the world *)

Definition M (A : Type) : Type := World -> A * World.

#[global] Instance M_ret : MRet M := fun A a w => (a, w).
#[global] Instance M_bind : MBind M :=
  fun A B k m w => k (fst (m w)) (snd (m w)).

Definition exec {A} (m : M A) (w : World) : World := snd (m w).
Definition eval {A} (m : M A) (w : World) : A := fst (m w).

Definition gets {A} (f : World -> A) : M A := fun w => (f w, w).
Definition modify (f : World -> World) : M unit := fun w => (tt, f w).

Definition with_self (f : Pipeline -> Pipeline) (w : World) : World :=
  mkWorld (f (self w)) (heap w) (trace w).

Definition emit (e : Effect) : M unit :=
  modify (fun w => mkWorld (self w) (heap w) (trace w ++ [e])).

(** Writing one object of the store leaves the others as they are. *)
Definition update (component : nat) (f : Component.t -> Component.t)
    (h : nat -> Component.t) : nat -> Component.t :=
  fun i => if decide (i = component) then f (h i) else h i.

Definition modify_component (component : nat)
    (f : Component.t -> Component.t) : M unit :=
  modify (fun w => mkWorld (self w) (update component f (heap w)) (trace w)).

(** [component.set_state(s)] *)
Definition component_set_state (component : nat) (s : ComponentState.t)
    : M unit :=
  modify_component component (fun c => Component.set_state c s);;
  emit (SetState component s).

(** ** Assignments to the fields of [Pipeline] *)

Definition set_tracker (t : _PipelineState.t) (p : Pipeline) : Pipeline :=
  mkPipeline (_nodes p) (_resume_event p) (_stop_event p) t (_counter p)
    (_min_number_of_iters_to_run p).

Definition set_resume_event (b : bool) (p : Pipeline) : Pipeline :=
  mkPipeline (_nodes p) b (_stop_event p) (_state p) (_counter p)
    (_min_number_of_iters_to_run p).

Definition set_stop_event (b : bool) (p : Pipeline) : Pipeline :=
  mkPipeline (_nodes p) (_resume_event p) b (_state p) (_counter p)
    (_min_number_of_iters_to_run p).

Definition set_counter (n : Z) (p : Pipeline) : Pipeline :=
  mkPipeline (_nodes p) (_resume_event p) (_stop_event p) (_state p) n
    (_min_number_of_iters_to_run p).

Definition set_min_number_of_iters_to_run (n : Z) (p : Pipeline) : Pipeline :=
  mkPipeline (_nodes p) (_resume_event p) (_stop_event p) (_state p)
    (_counter p) n.

Definition set_nodes (s : gset nat) (p : Pipeline) : Pipeline :=
  mkPipeline s (_resume_event p) (_stop_event p) (_state p) (_counter p)
    (_min_number_of_iters_to_run p).

(** ** [_PipelineState]: the state tracker *)

(** The properties [_PipelineState.state] and [_PipelineState.verbose]. *)
Definition tracker_state : M PipelineState.t :=
  gets (fun w => _PipelineState._state (_state (self w))).

Definition tracker_verbose : M VerboseMode.t :=
  gets (fun w => _PipelineState._verbose (_state (self w))).

(** [_PipelineState._logger] *)
Definition _logger (state : PipelineState.t) (msg : option string) : M unit :=
  v ← tracker_verbose;
  if bool_decide (v ≠ VerboseMode.DISABLED) then
    match msg with
    | None => emit (LogInfo (" " +:+ PipelineState.name state))
    | Some m =>
        emit (LogInfo (" " +:+ PipelineState.name state +:+ ": " +:+ m))
    end
  else mret tt.

(** [_PipelineState.__call__]: the one entry point that changes the state. *)
Definition __call__ (state : PipelineState.t) (msg : option string) : M unit :=
  modify (with_self (fun p =>
    set_tracker (_PipelineState.mk state (_PipelineState._verbose (_state p))) p));;
  emit (Transition state);;
  s ← tracker_state;
  _logger s msg.

(** The setter of [_PipelineState.verbose]. *)
Definition tracker_set_verbose (value : VerboseMode.t) : M unit :=
  modify (with_self (fun p =>
    set_tracker (_PipelineState.mk (_PipelineState._state (_state p)) value) p)).

(** ** [Pipeline] *)

(** [Pipeline.__init__] *)
Definition Pipeline_init : Pipeline :=
  mkPipeline ∅ false false
    (_PipelineState.mk PipelineState.CREATED VerboseMode.DISABLED) 0 0.

(** The calls on the two [asyncio.Event] objects. *)
Definition resume_event_is_set : M bool := gets (fun w => _resume_event (self w)).
Definition stop_event_is_set : M bool := gets (fun w => _stop_event (self w)).

Definition resume_event_set : M unit :=
  modify (with_self (set_resume_event true));; emit ResumeSet.
Definition resume_event_clear : M unit :=
  modify (with_self (set_resume_event false));; emit ResumeClear.
Definition stop_event_set : M unit :=
  modify (with_self (set_stop_event true));; emit StopSet.
Definition stop_event_clear : M unit :=
  modify (with_self (set_stop_event false));; emit StopClear.

(** The properties [Pipeline.counter] and [Pipeline.state]. *)
Definition counter : M Z := gets (fun w => _counter (self w)).
Definition state : M PipelineState.t := tracker_state.

Definition component_counter (component : nat) : M Z :=
  gets (fun w => Component.counter (heap w component)).
Definition component_stopping_iteration (component : nat) : M Z :=
  gets (fun w => Component.stopping_iteration (heap w component)).

(** [Pipeline.get_component_stopping_iteration] *)
Definition get_component_stopping_iteration (component : nat) : M Z :=
  m ← gets (fun w => _min_number_of_iters_to_run (self w));
  if bool_decide (m > 0) then
    c ← component_counter component;
    mret (c + m)
  else mret 0.

(** [Pipeline.before_component_hook], up to its [await]: the coroutine is
    suspended in [self._resume_event.wait()] until the gate is open. *)
Definition before_component_hook_enter (component : nat) : M unit :=
  b ← resume_event_is_set;
  if negb b then component_set_state component ComponentState.PAUSED
  else mret tt.

(** [Pipeline.before_component_hook], after its [await]. *)
Definition before_component_hook_leave (component : nat) : M unit :=
  component_set_state component ComponentState.READY.

(** [Pipeline.after_component_hook] *)
Definition after_component_hook (component : nat) : M unit :=
  stopped ← stop_event_is_set;
  if (stopped : bool) then
    component_set_state component ComponentState.FORCED_STOP
  else
    n ← counter;
    c ← component_counter component;
    modify (with_self (set_counter (Z.max n c)));;
    m ← gets (fun w => _min_number_of_iters_to_run (self w));
    c' ← component_counter component;
    stopping ← component_stopping_iteration component;
    if bool_decide (m ≠ 0) && bool_decide (c' >= stopping) then
      component_set_state component ComponentState.STOPPED_AT_ITER
    else mret tt.

(** [Pipeline.add_nodes]; a single component is the list of one component. *)
Definition add_nodes (components : list nat) : M unit :=
  modify (with_self (fun p =>
    set_nodes (foldl (fun s component => s ∪ {[component]}) (_nodes p) components) p)).

(** [Pipeline.pause] *)
Definition pause : M unit :=
  b ← resume_event_is_set;
  if (b : bool) then
    __call__ PipelineState.PAUSED None;;
    resume_event_clear
  else mret tt.

(** [Pipeline.resume] *)
Definition resume : M unit :=
  b ← resume_event_is_set;
  if negb b then
    __call__ PipelineState.RUNNING None;;
    resume_event_set
  else mret tt.

(** [Pipeline.stop] *)
Definition stop : M unit :=
  resume;;
  stop_event_set;;
  __call__ PipelineState.FORCED_STOP None.

(** A [for] loop with a body run for its effect. *)
Fixpoint for_each {A} (l : list A) (body : A -> M unit) : M unit :=
  match l with
  | [] => mret tt
  | x :: l' => body x;; for_each l' body
  end.

(** [Pipeline.set_verbose_mode] *)
Definition set_verbose_mode (state : VerboseMode.t) : M unit :=
  v ← tracker_verbose;
  if bool_decide (v = state) then mret tt
  else
    tracker_set_verbose state;;
    nodes ← gets (fun w => elements (_nodes (self w)));
    for_each nodes (fun node =>
      v' ← tracker_verbose;
      modify_component node (fun c =>
        Component.set_verbose c (bool_decide (v' = VerboseMode.COMPONENT)))).

(** ** Running the graph *)

Section Run.

(** [asyncio.gather]: the scheduler waits until the given tasks are done.
    What the component loops and the operator do to the world in the meantime
    is not the scheduler's code. *)
Variable gather : list nat -> M unit.

(** [async_utils.get_task_if_exists]: the task that still runs a node. *)
Variable get_task_if_exists : nat -> M (option nat).

(** The first loop of [start]: every node is bound to the scheduler and its
    coroutine [node()] is created, not yet run. *)
Fixpoint create_tasks (nodes : list nat) (tasks : list nat) : M (list nat) :=
  match nodes with
  | [] => mret tasks
  | node :: nodes' =>
      modify_component node Component.set_pipeline;;
      create_tasks nodes' (tasks ++ [node])
  end.

(** The second loop of [start]. *)
Fixpoint collect_pending (nodes : list nat) (pending_tasks : list nat)
    : M (list nat) :=
  match nodes with
  | [] => mret pending_tasks
  | node :: nodes' =>
      t ← get_task_if_exists node;
      match t : option nat with
      | Some t' => collect_pending nodes' (pending_tasks ++ [t'])
      | None => collect_pending nodes' pending_tasks
      end
  end.

(** The inner coroutine [start] of [Pipeline.async_run]. *)
Definition start : M unit :=
  nodes ← gets (fun w => elements (_nodes (self w)));
  tasks ← create_tasks nodes [];
  resume;;
  n ← gets (fun w => size (_nodes (self w)));
  if bool_decide (n = 0%nat) then
    __call__ PipelineState.ERROR (Some "No components added to the pipeline")
  else
    gather tasks;;
    nodes' ← gets (fun w => elements (_nodes (self w)));
    pending_tasks ← collect_pending nodes' [];
    gather pending_tasks.

(** [Pipeline.async_run] *)
Definition async_run (iters : Z) : M PipelineState.t :=
  modify (with_self (set_min_number_of_iters_to_run iters));;
  stop_event_clear;;
  __call__ PipelineState.INITIALIZING None;;
  start;;
  s ← state;
  if bool_decide (s ∈ [PipelineState.FORCED_STOP; PipelineState.ERROR]) then
    mret s
  else
    __call__ PipelineState.ENDED None;;
    state.

(** [Pipeline.run]: [async_utils.run_coroutine] drives the coroutine to its
    end. *)
Definition run (iters : Z) : M PipelineState.t :=
  async_run iters;;
  state.

End Run.

(** ** What happens while a run waits *)

(** The coroutines suspended in [await self._resume_event.wait()].  Besides
    its value an [asyncio.Event] keeps the futures of its waiters: [wait()]
    returns at once when the value is set and otherwise adds a future and
    suspends; [set()] on an unset event resolves the futures of all waiters;
    [clear()] only resets the value.  So a waiter that [set()] has released
    goes on when it is scheduled, also when the gate has been closed again in
    between.  A waiter is the component whose before-hook is suspended and
    whether it has been released. *)
Record RunState : Type := mkRunState {
  world : World;
  waiters : list (nat * bool)
}.

(** [Event.set()] on an unset event. *)
Definition release_all (ws : list (nat * bool)) : list (nat * bool) :=
  map (fun waiter => (fst waiter, true)) ws.

(** The first released waiter of a component leaves the list. *)
Fixpoint wake (component : nat) (ws : list (nat * bool))
    : option (list (nat * bool)) :=
  match ws with
  | [] => None
  | waiter :: ws' =>
      if bool_decide (fst waiter = component) && snd waiter then Some ws'
      else option_map (cons waiter) (wake component ws')
  end.

(** The calls that reach the scheduler between the start and the end of a
    run: the operator's, the two hooks of the component loops, and the work of
    the components on the store, which is theirs.  The before-hook is one
    step when the gate is open at the call; on a closed gate it is the call,
    up to the suspension, and later the waking of the released waiter. *)
Inductive Op : Type :=
| CallPause
| CallResume
| CallStop
| CallAddNodes (components : list nat)
| CallSetVerboseMode (mode : VerboseMode.t)
| BeforeHookCall (component : nat)
| BeforeHookWake (component : nat)
| AfterHook (component : nat)
| ComponentWork (work : (nat -> Component.t) -> nat -> Component.t).

(** [None]: the step is not possible (no released waiter to wake).  [resume]
    calls [set()] only on a closed gate, and so does [stop] through
    [resume]. *)
Definition apply_op (o : Op) (r : RunState) : option RunState :=
  let w := world r in
  match o with
  | CallPause => Some (mkRunState (exec pause w) (waiters r))
  | CallResume =>
      Some (mkRunState (exec resume w)
              (if _resume_event (self w) then waiters r
               else release_all (waiters r)))
  | CallStop =>
      Some (mkRunState (exec stop w)
              (if _resume_event (self w) then waiters r
               else release_all (waiters r)))
  | CallAddNodes components =>
      Some (mkRunState (exec (add_nodes components) w) (waiters r))
  | CallSetVerboseMode mode =>
      Some (mkRunState (exec (set_verbose_mode mode) w) (waiters r))
  | BeforeHookCall component =>
      if _resume_event (self w)
      then Some (mkRunState
                   (exec (before_component_hook_enter component;;
                          before_component_hook_leave component) w)
                   (waiters r))
      else Some (mkRunState
                   (exec (before_component_hook_enter component) w)
                   (waiters r ++ [(component, false)]))
  | BeforeHookWake component =>
      match wake component (waiters r) with
      | Some ws =>
          Some (mkRunState (exec (before_component_hook_leave component) w) ws)
      | None => None
      end
  | AfterHook component =>
      Some (mkRunState (exec (after_component_hook component) w) (waiters r))
  | ComponentWork work =>
      Some (mkRunState (mkWorld (self w) (work (heap w)) (trace w))
              (waiters r))
  end.

Fixpoint run_ops (ops : list Op) (r : RunState) : option RunState :=
  match ops with
  | [] => Some r
  | o :: ops' =>
      match apply_op o r with
      | Some r' => run_ops ops' r'
      | None => None
      end
  end.

(** A world right after [Pipeline()], with components that have not run. *)
Definition Component_init : Component.t :=
  Component.mk 0 0 (ComponentState.OWN 0) false false.

Definition World_init : World :=
  mkWorld Pipeline_init (fun _ => Component_init) [].

(** ** Reading a world *)

Definition state_of (w : World) : PipelineState.t :=
  _PipelineState._state (_state (self w)).

Definition verbose_of (w : World) : VerboseMode.t :=
  _PipelineState._verbose (_state (self w)).

(** The lines one transition gives to the log under a verbosity. *)
Definition log_lines (v : VerboseMode.t) (s : PipelineState.t)
    (msg : option string) : list Effect :=
  match v, msg with
  | VerboseMode.DISABLED, _ => []
  | _, None => [LogInfo (" " +:+ PipelineState.name s)]
  | _, Some m => [LogInfo (" " +:+ PipelineState.name s +:+ ": " +:+ m)]
  end.

(** The world after the tracker was called with [s]. *)
Definition transitioned (s : PipelineState.t) (msg : option string)
    (w : World) : World :=
  mkWorld
    (set_tracker (_PipelineState.mk s (verbose_of w)) (self w))
    (heap w)
    (trace w ++ Transition s :: log_lines (verbose_of w) s msg).

(** ** Sample worlds *)

(** Stand-ins for what a run waits for: tasks that end at once, an operator
    who calls [stop()] while the scheduler waits, and no task left over. *)
Definition gather_none : list nat -> M unit := fun _ => mret tt.
Definition gather_stopped : list nat -> M unit := fun _ => stop.
Definition no_task : nat -> M (option nat) := fun _ => mret None.

(** One registered component, before any run. *)
Definition World_one : World := exec (add_nodes [0%nat]) World_init.

(** A run of two iterations under way: component 0 has done two of them and
    its stopping iteration is 2. *)
Definition World_bounded : World :=
  mkWorld
    (mkPipeline {[0%nat]} true false
       (_PipelineState.mk PipelineState.RUNNING VerboseMode.PIPELINE) 1 2)
    (fun _ => Component.mk 2 2 (ComponentState.OWN 0) true false) [].

(** The same after the operator's [stop()]. *)
Definition World_stopped : World := exec stop World_bounded.

(** The same run, asked for with [iters = -1]. *)
Definition World_negative : World :=
  with_self (set_min_number_of_iters_to_run (-1)) World_bounded.

(** The bounded run with nobody waiting at the gate. *)
Definition Run_bounded : RunState := mkRunState World_bounded [].

(** Component 0 waits at the gate, is released by [resume()] and goes on
    after a second [pause()]; then it goes on to its fifth iteration. *)
Definition sample_ops : list Op :=
  [AfterHook 0; CallPause; BeforeHookCall 0; CallResume; CallPause;
   BeforeHookWake 0;
   ComponentWork (update 0 (fun c =>
     Component.mk 5 (Component.stopping_iteration c) (Component.state c)
       (Component.pipeline c) (Component.verbose c)));
   AfterHook 0].

Definition sample_end : RunState :=
  default Run_bounded (run_ops sample_ops Run_bounded).

(** ** Further sample worlds *)

(** Two registered components, the first of them at the closed gate. *)
Definition World_two : World := exec (add_nodes [0%nat; 1%nat]) World_init.

(** ** The rest of a run *)

(** What [async_run] does once the tasks are created and the gate is open:
    the two waits of [start] and the last four lines of [async_run]. *)
Definition await_and_finish (gather : list nat -> M unit)
    (get_task_if_exists : nat -> M (option nat)) (tasks : list nat)
    : M PipelineState.t :=
  gather tasks;;
  nodes' ← gets (fun w => elements (_nodes (self w)));
  pending_tasks ← collect_pending get_task_if_exists nodes' [];
  gather pending_tasks;;
  s ← state;
  if bool_decide (s ∈ [PipelineState.FORCED_STOP; PipelineState.ERROR]) then
    mret s
  else
    __call__ PipelineState.ENDED None;;
    state.

(** The operator stops a bounded run, pauses and resumes it and pauses it
    again; component 0, caught at the gate, goes on after the last pause. *)
Definition sample_stop_ops : list Op :=
  [CallPause; BeforeHookCall 0; CallResume; CallPause; BeforeHookWake 0].

Definition sample_stop_end : RunState :=
  default Run_bounded (run_ops (CallStop :: sample_stop_ops) Run_bounded).

(** ** The pipeline state and the two signals *)

(** The state the pipeline reports agrees with the gate and the stop flag. *)
Definition consistent (w : World) : Prop :=
  (state_of w = PipelineState.PAUSED -> _resume_event (self w) = false)
  /\ (state_of w = PipelineState.RUNNING -> _resume_event (self w) = true)
  /\ (state_of w = PipelineState.FORCED_STOP ->
      _resume_event (self w) = true /\ _stop_event (self w) = true).

(** ** Counting in the history *)

Definition is_log (e : Effect) : bool :=
  match e with LogInfo _ => true | _ => false end.

Definition is_transition (e : Effect) : bool :=
  match e with Transition _ => true | _ => false end.

Definition log_count (tr : list Effect) : nat :=
  length (List.filter is_log tr).

Definition transition_count (tr : list Effect) : nat :=
  length (List.filter is_transition tr).

Definition sets_verbose_mode (o : Op) : bool :=
  match o with CallSetVerboseMode _ => true | _ => false end.

(** The log lines that go with the transitions under a verbose mode: none
    when it is [DISABLED], one for each transition otherwise. *)
Definition logged (v : VerboseMode.t) (added : list Effect) : Prop :=
  log_count added
  = match v with
    | VerboseMode.DISABLED => 0%nat
    | _ => transition_count added
    end.

(** What a call adds to the history, with the verbose mode it keeps. *)
Definition grows (w w' : World) : Prop :=
  verbose_of w' = verbose_of w
  /\ exists added, trace w' = trace w ++ added /\ logged (verbose_of w) added.

(** What a call that neither logs nor changes the pipeline state adds. *)
Definition silent (w w' : World) : Prop :=
  exists added,
    trace w' = trace w ++ added
    /\ log_count added = 0%nat /\ transition_count added = 0%nat.

(** The operator pauses, resumes and stops a run that logs. *)
Definition sample_log_ops : list Op :=
  [CallPause; BeforeHookCall 0; CallResume; CallPause; BeforeHookWake 0;
   AfterHook 0; CallStop].

Definition sample_log_end : RunState :=
  default Run_bounded (run_ops sample_log_ops Run_bounded).

(** * Properties *)

Ltac unfold_monad :=
  unfold exec, eval, tracker_state, tracker_verbose, state, counter,
    resume_event_is_set, stop_event_is_set, resume_event_set,
    resume_event_clear, stop_event_set, stop_event_clear,
    component_set_state, modify_component, component_counter,
    component_stopping_iteration, emit, gets, modify, with_self,
    mbind, M_bind, mret, M_ret in *.

Ltac destruct_world w :=
  let ns := fresh "ns" in let gate := fresh "gate" in
  let flag := fresh "flag" in let st := fresh "st" in
  let v := fresh "v" in let n := fresh "n" in let m := fresh "m" in
  let h := fresh "h" in let tr := fresh "tr" in
  destruct w as [[ns gate flag [st v] n m] h tr].

Lemma logger_eq s msg w :
  _logger s msg w =
  (tt, mkWorld (self w) (heap w) (trace w ++ log_lines (verbose_of w) s msg)).
Proof.
  destruct_world w. unfold _logger, verbose_of. unfold_monad. cbn.
  destruct v, msg; cbn; rewrite ?app_nil_r; reflexivity.
Qed.

Lemma call_eq s msg w : __call__ s msg w = (tt, transitioned s msg w).
Proof.
  unfold __call__, transitioned. unfold_monad. cbn.
  rewrite logger_eq. cbn. unfold verbose_of. cbn.
  rewrite <- app_assoc. reflexivity.
Qed.

Lemma resume_event_set_eq w :
  exec resume_event_set w =
  mkWorld (set_resume_event true (self w)) (heap w) (trace w ++ [ResumeSet]).
Proof. reflexivity. Qed.

Lemma resume_event_clear_eq w :
  exec resume_event_clear w =
  mkWorld (set_resume_event false (self w)) (heap w) (trace w ++ [ResumeClear]).
Proof. reflexivity. Qed.

Lemma stop_event_set_eq w :
  exec stop_event_set w =
  mkWorld (set_stop_event true (self w)) (heap w) (trace w ++ [StopSet]).
Proof. reflexivity. Qed.

Lemma stop_event_clear_eq w :
  exec stop_event_clear w =
  mkWorld (set_stop_event false (self w)) (heap w) (trace w ++ [StopClear]).
Proof. reflexivity. Qed.

Lemma pause_eq w :
  exec pause w =
  if _resume_event (self w)
  then exec resume_event_clear (transitioned PipelineState.PAUSED None w)
  else w.
Proof.
  unfold pause, exec, mbind, M_bind, resume_event_is_set, gets. cbn.
  destruct (_resume_event (self w)); cbn; [|reflexivity].
  rewrite call_eq. reflexivity.
Qed.

Lemma resume_eq w :
  exec resume w =
  if _resume_event (self w)
  then w
  else exec resume_event_set (transitioned PipelineState.RUNNING None w).
Proof.
  unfold resume, exec, mbind, M_bind, resume_event_is_set, gets. cbn.
  destruct (_resume_event (self w)); cbn; [reflexivity|].
  rewrite call_eq. reflexivity.
Qed.

Lemma stop_eq w :
  exec stop w =
  transitioned PipelineState.FORCED_STOP None
    (exec stop_event_set (exec resume w)).
Proof.
  unfold stop, exec, mbind, M_bind. cbn. rewrite call_eq. reflexivity.
Qed.

Lemma resume_gate_open w : _resume_event (self (exec resume w)) = true.
Proof.
  rewrite resume_eq. destruct (_resume_event (self w)) eqn:E; [exact E|].
  reflexivity.
Qed.

(** ** Pause and resume *)

(** C7. [pause()] twice in a row leaves the world that one [pause()] leaves
    (gate, pipeline state, transitions and log lines), and so does [resume()]
    twice; on a gate that is already closed [pause()] changes nothing at all:
    no transition and no log line. *)
Theorem pause_resume_idempotent (w : World) :
  exec pause (exec pause w) = exec pause w
  /\ exec resume (exec resume w) = exec resume w
  /\ exec pause (with_self (set_resume_event false) w)
     = with_self (set_resume_event false) w.
Proof.
  split; [|split].
  - rewrite (pause_eq w). destruct (_resume_event (self w)) eqn:E.
    + rewrite pause_eq. reflexivity.
    + rewrite pause_eq, E. reflexivity.
  - rewrite (resume_eq w). destruct (_resume_event (self w)) eqn:E.
    + rewrite resume_eq, E. reflexivity.
    + rewrite resume_eq. reflexivity.
  - rewrite pause_eq. reflexivity.
Qed.

(** ** Stop *)

(** C2. From every world, [stop()] first resumes (when the gate is closed:
    the transition to [RUNNING], then the gate is set), then sets the stop
    flag, then makes the transition to [FORCED_STOP]; when it returns the gate
    is open, the flag is set and the pipeline state is [FORCED_STOP], also
    when the pipeline was paused. *)
Theorem stop_resumes_then_forces (w : World) :
  let w' := exec stop w in
  _resume_event (self w') = true
  /\ _stop_event (self w') = true
  /\ state_of w' = PipelineState.FORCED_STOP
  /\ trace w' =
       trace w
       ++ (if _resume_event (self w) then []
           else Transition PipelineState.RUNNING
                :: log_lines (verbose_of w) PipelineState.RUNNING None
                ++ [ResumeSet])
       ++ [StopSet; Transition PipelineState.FORCED_STOP]
       ++ log_lines (verbose_of w) PipelineState.FORCED_STOP None.
Proof.
  cbn zeta. rewrite stop_eq.
  split; [|split; [|split]].
  - cbn. apply resume_gate_open.
  - reflexivity.
  - reflexivity.
  - rewrite resume_eq. destruct (_resume_event (self w)); cbn.
    + rewrite stop_event_set_eq. cbn. rewrite <- ?app_assoc. reflexivity.
    + rewrite stop_event_set_eq, resume_event_set_eq. cbn.
      rewrite <- ?app_assoc. cbn. rewrite <- ?app_assoc. reflexivity.
Qed.

(** ** The hooks *)

Lemma after_component_hook_eq component w :
  exec (after_component_hook component) w =
  if _stop_event (self w) then
    exec (component_set_state component ComponentState.FORCED_STOP) w
  else
    let c := heap w component in
    let w1 :=
      with_self (set_counter (Z.max (_counter (self w)) (Component.counter c))) w in
    if bool_decide (_min_number_of_iters_to_run (self w) ≠ 0)
       && bool_decide (Component.counter c >= Component.stopping_iteration c)
    then exec (component_set_state component ComponentState.STOPPED_AT_ITER) w1
    else w1.
Proof.
  unfold after_component_hook. unfold_monad. cbn.
  destruct (_stop_event (self w)); cbn; [reflexivity|].
  destruct (bool_decide _ && bool_decide _); reflexivity.
Qed.

Lemma component_set_state_eq component s w :
  exec (component_set_state component s) w =
  mkWorld (self w)
    (update component (fun c => Component.set_state c s) (heap w))
    (trace w ++ [SetState component s]).
Proof. reflexivity. Qed.

Lemma update_same component f h : update component f h component = f (h component).
Proof. unfold update. rewrite decide_True; reflexivity. Qed.

Lemma update_other component f h j :
  j ≠ component -> update component f h j = h j.
Proof. intros Hj. unfold update. rewrite decide_False; [reflexivity | exact Hj]. Qed.

Lemma snoc_neq {A} (l : list A) (x : A) : l ++ [x] ≠ l.
Proof.
  intros H. apply (f_equal length) in H. rewrite length_app in H.
  cbn in H. lia.
Qed.

(** Without the stop flag the after-hook takes one of two ways. *)
Lemma after_component_hook_cases component w :
  _stop_event (self w) = false ->
  let c := heap w component in
  let reached :=
    _min_number_of_iters_to_run (self w) ≠ 0
    /\ Component.counter c >= Component.stopping_iteration c in
  let w1 :=
    with_self (set_counter (Z.max (_counter (self w)) (Component.counter c))) w in
  (reached
   /\ exec (after_component_hook component) w
      = exec (component_set_state component ComponentState.STOPPED_AT_ITER) w1)
  \/ (~ reached /\ exec (after_component_hook component) w = w1).
Proof.
  intros Hstop. cbn zeta. rewrite after_component_hook_eq, Hstop. cbn zeta.
  destruct (bool_decide (_min_number_of_iters_to_run (self w) ≠ 0)
            && bool_decide (Component.counter (heap w component)
                            >= Component.stopping_iteration (heap w component)))
    eqn:E.
  - left. apply andb_true_iff in E as [E1 E2].
    apply bool_decide_eq_true_1 in E1, E2. tauto.
  - right. split; [|reflexivity]. intros [H1 H2].
    apply andb_false_iff in E as [E|E];
      apply bool_decide_eq_false_1 in E; tauto.
Qed.

(** C3. The stopping iteration of a component is its counter plus the
    minimum number of iterations when that number is positive, and 0 when it
    is 0, whatever the counter; asking for it changes nothing. *)
Theorem get_component_stopping_iteration_spec (component : nat) (w : World) :
  (_min_number_of_iters_to_run (self w) > 0 ->
   eval (get_component_stopping_iteration component) w
   = Component.counter (heap w component) + _min_number_of_iters_to_run (self w))
  /\ (_min_number_of_iters_to_run (self w) = 0 ->
      eval (get_component_stopping_iteration component) w = 0)
  /\ exec (get_component_stopping_iteration component) w = w.
Proof.
  unfold get_component_stopping_iteration. unfold_monad. cbn.
  split; [|split].
  - intros Hm. rewrite bool_decide_eq_true_2 by exact Hm. reflexivity.
  - intros Hm. rewrite bool_decide_eq_false_2 by lia. reflexivity.
  - case_bool_decide; reflexivity.
Qed.

(** C4. With the stop flag not set, the after-hook makes the global counter
    the maximum of itself and the component's counter, and it writes
    [STOPPED_AT_ITER] into the component exactly when the minimum number of
    iterations is not 0 and the component's counter has reached its stopping
    iteration; otherwise it writes nothing. *)
Theorem after_component_hook_running (component : nat) (w : World) :
  _stop_event (self w) = false ->
  let w' := exec (after_component_hook component) w in
  let c := heap w component in
  let reached :=
    _min_number_of_iters_to_run (self w) ≠ 0
    /\ Component.counter c >= Component.stopping_iteration c in
  _counter (self w') = Z.max (_counter (self w)) (Component.counter c)
  /\ (trace w' = trace w ++ [SetState component ComponentState.STOPPED_AT_ITER]
      <-> reached)
  /\ (reached ->
      Component.state (heap w' component) = ComponentState.STOPPED_AT_ITER)
  /\ (~ reached -> heap w' = heap w /\ trace w' = trace w).
Proof.
  intros Hstop. cbn zeta.
  destruct (after_component_hook_cases component w Hstop)
    as [[Hr ->] | [Hn ->]].
  - rewrite component_set_state_eq. cbn.
    split; [reflexivity|]. split; [tauto|]. split.
    + intros _. rewrite update_same. reflexivity.
    + tauto.
  - cbn. split; [reflexivity|]. split; [|split].
    + split; [|tauto]. intros H. symmetry in H. exfalso.
      exact (snoc_neq _ _ H).
    + tauto.
    + intros _. split; reflexivity.
Qed.

(** C5. With the stop flag set, the after-hook writes [FORCED_STOP] into the
    component and nothing else, whatever the minimum number of iterations and
    the counters are: the component is not marked [STOPPED_AT_ITER] in that
    call. *)
Theorem after_component_hook_forced_stop (component : nat) (w : World) :
  _stop_event (self w) = true ->
  let w' := exec (after_component_hook component) w in
  Component.state (heap w' component) = ComponentState.FORCED_STOP
  /\ trace w' = trace w ++ [SetState component ComponentState.FORCED_STOP]
  /\ Component.state (heap w' component) ≠ ComponentState.STOPPED_AT_ITER.
Proof.
  intros Hstop. cbn zeta. rewrite after_component_hook_eq, Hstop.
  rewrite component_set_state_eq. cbn. rewrite update_same. cbn.
  split; [reflexivity|]. split; [reflexivity|]. discriminate.
Qed.

(** C9. With the stop flag set, the after-hook leaves every field of the
    scheduler as it was, the global counter among them; in the store only the
    state of that one component changes, by the one write of [FORCED_STOP]. *)
Theorem after_component_hook_forced_stop_frame (component : nat) (w : World) :
  _stop_event (self w) = true ->
  let w' := exec (after_component_hook component) w in
  self w' = self w
  /\ _counter (self w') = _counter (self w)
  /\ heap w' component
     = Component.set_state (heap w component) ComponentState.FORCED_STOP
  /\ Component.counter (heap w' component) = Component.counter (heap w component)
  /\ Component.stopping_iteration (heap w' component)
     = Component.stopping_iteration (heap w component)
  /\ (forall j, j ≠ component -> heap w' j = heap w j)
  /\ trace w' = trace w ++ [SetState component ComponentState.FORCED_STOP].
Proof.
  intros Hstop. cbn zeta. rewrite after_component_hook_eq, Hstop.
  rewrite component_set_state_eq. cbn. rewrite update_same.
  repeat split; try reflexivity.
  intros j Hj. apply update_other. exact Hj.
Qed.

(** C10. With a negative minimum number of iterations the stopping iteration
    of every component is 0, as it is with the minimum 0, while the after-hook
    still compares the component's counter with its stopping iteration, which
    it does not do with the minimum 0. *)
Theorem negative_iterations (component : nat) (w : World) :
  _min_number_of_iters_to_run (self w) < 0 ->
  let w' := exec (after_component_hook component) w in
  let w0 := with_self (set_min_number_of_iters_to_run 0) w in
  let c := heap w component in
  eval (get_component_stopping_iteration component) w = 0
  /\ eval (get_component_stopping_iteration component) w0 = 0
  /\ (_stop_event (self w) = false ->
      (trace w' = trace w ++ [SetState component ComponentState.STOPPED_AT_ITER]
       <-> Component.counter c >= Component.stopping_iteration c)
      /\ trace (exec (after_component_hook component) w0) = trace w0).
Proof.
  intros Hm. cbn zeta. split; [|split].
  - unfold get_component_stopping_iteration. unfold_monad. cbn.
    rewrite bool_decide_eq_false_2 by lia. reflexivity.
  - reflexivity.
  - intros Hstop. split.
    + destruct (after_component_hook_cases component w Hstop)
        as [[Hr ->] | [Hn ->]].
      * rewrite component_set_state_eq. cbn. tauto.
      * cbn. split; [|intros H; exfalso; apply Hn; split; [lia | exact H]].
        intros H. symmetry in H. exfalso. exact (snoc_neq _ _ H).
    + rewrite after_component_hook_eq. cbn. rewrite Hstop. reflexivity.
Qed.

(** ** Equations of the monad *)

Lemma bind_eq {A B} (m : M A) (k : A -> M B) w :
  (m ≫= k) w = k (eval m w) (exec m w).
Proof. reflexivity. Qed.

Lemma exec_bind {A B} (m : M A) (k : A -> M B) w :
  exec (m ≫= k) w = exec (k (eval m w)) (exec m w).
Proof. reflexivity. Qed.

Lemma eval_gets {A} (f : World -> A) w : eval (gets f) w = f w.
Proof. reflexivity. Qed.

Lemma exec_gets {A} (f : World -> A) w : exec (gets f) w = w.
Proof. reflexivity. Qed.

Lemma exec_modify f w : exec (modify f) w = f w.
Proof. reflexivity. Qed.

Lemma exec_call s msg w : exec (__call__ s msg) w = transitioned s msg w.
Proof. unfold exec. rewrite call_eq. reflexivity. Qed.

Lemma eval_state w : eval state w = state_of w.
Proof. reflexivity. Qed.

Lemma exec_state w : exec state w = w.
Proof. reflexivity. Qed.

(** ** The global counter *)

Lemma nodes_resume w : _nodes (self (exec resume w)) = _nodes (self w).
Proof. rewrite resume_eq. destruct (_resume_event (self w)); reflexivity. Qed.

Lemma counter_pause w : _counter (self (exec pause w)) = _counter (self w).
Proof. rewrite pause_eq. destruct (_resume_event (self w)); reflexivity. Qed.

Lemma counter_resume w : _counter (self (exec resume w)) = _counter (self w).
Proof. rewrite resume_eq. destruct (_resume_event (self w)); reflexivity. Qed.

Lemma counter_stop w : _counter (self (exec stop w)) = _counter (self w).
Proof. rewrite stop_eq. cbn. apply counter_resume. Qed.

Lemma self_for_each {A} (body : A -> M unit) :
  (forall x w, self (exec (body x) w) = self w) ->
  forall l w, self (exec (for_each l body) w) = self w.
Proof.
  intros Hbody l. induction l as [|x l IH]; intros w; [reflexivity|].
  cbn [for_each]. rewrite exec_bind, IH. apply Hbody.
Qed.

Lemma counter_set_verbose_mode mode w :
  _counter (self (exec (set_verbose_mode mode) w)) = _counter (self w).
Proof.
  unfold set_verbose_mode. rewrite exec_bind.
  case_bool_decide; [reflexivity|].
  rewrite !exec_bind, self_for_each; [reflexivity|].
  intros x w0. reflexivity.
Qed.

Lemma counter_before_enter component w :
  _counter (self (exec (before_component_hook_enter component) w))
  = _counter (self w).
Proof.
  unfold before_component_hook_enter. rewrite exec_bind.
  unfold resume_event_is_set. rewrite eval_gets, exec_gets.
  destruct (_resume_event (self w)); reflexivity.
Qed.

Lemma counter_after_hook component w :
  _counter (self (exec (after_component_hook component) w))
  = if _stop_event (self w) then _counter (self w)
    else Z.max (_counter (self w)) (Component.counter (heap w component)).
Proof.
  rewrite after_component_hook_eq.
  destruct (_stop_event (self w)); [reflexivity|]. cbn zeta.
  destruct (bool_decide _ && bool_decide _); reflexivity.
Qed.

Lemma before_component_hook_enter_eq component w :
  exec (before_component_hook_enter component) w
  = if _resume_event (self w) then w
    else exec (component_set_state component ComponentState.PAUSED) w.
Proof.
  unfold before_component_hook_enter. rewrite exec_bind.
  unfold resume_event_is_set. rewrite eval_gets, exec_gets.
  destruct (_resume_event (self w)); reflexivity.
Qed.

(** The before-hook on an open gate: it does not wait. *)
Lemma before_component_hook_open component w :
  _resume_event (self w) = true ->
  exec (before_component_hook_enter component;;
        before_component_hook_leave component) w
  = exec (component_set_state component ComponentState.READY) w.
Proof.
  intros Hg. rewrite exec_bind, before_component_hook_enter_eq, Hg.
  reflexivity.
Qed.

(** One call changes the counter only in the after-hook, and only upwards. *)
Lemma counter_apply_op o r r' :
  apply_op o r = Some r' ->
  _counter (self (world r')) = _counter (self (world r))
  \/ exists component,
       o = AfterHook component
       /\ _stop_event (self (world r)) = false
       /\ _counter (self (world r'))
          = Z.max (_counter (self (world r)))
              (Component.counter (heap (world r) component)).
Proof.
  destruct o; cbn [apply_op]; intros H.
  - injection H as <-. left. apply counter_pause.
  - injection H as <-. left. apply counter_resume.
  - injection H as <-. left. apply counter_stop.
  - injection H as <-. left. reflexivity.
  - injection H as <-. left. apply counter_set_verbose_mode.
  - destruct (_resume_event (self (world r))) eqn:E; injection H as <-;
      left; cbn [world].
    + rewrite before_component_hook_open by exact E. reflexivity.
    + apply counter_before_enter.
  - destruct (wake component (waiters r)); [|discriminate].
    injection H as <-. left. reflexivity.
  - injection H as <-. cbn [world]. rewrite counter_after_hook.
    destruct (_stop_event (self (world r))) eqn:E; [left; reflexivity|].
    right. exists component. repeat split.
  - injection H as <-. left. reflexivity.
Qed.

(** The same over a whole run, for tasks that do not lower the counter:
    [async_run] itself resets the stop flag and the minimum number of
    iterations, never the counter. *)
Section RunCounter.

Variable gather : list nat -> M unit.
Variable get_task_if_exists : nat -> M (option nat).

Hypothesis gather_counter : forall tasks w,
  _counter (self w) <= _counter (self (exec (gather tasks) w)).
Hypothesis get_task_counter : forall node w,
  _counter (self w) <= _counter (self (exec (get_task_if_exists node) w)).

Lemma counter_create_tasks nodes tasks w :
  _counter (self (exec (create_tasks nodes tasks) w)) = _counter (self w).
Proof.
  revert tasks w. induction nodes as [|node nodes IH]; intros tasks w;
    [reflexivity|].
  cbn [create_tasks]. rewrite exec_bind, IH. reflexivity.
Qed.

Lemma counter_collect_pending nodes pending w :
  _counter (self w)
  <= _counter (self (exec (collect_pending get_task_if_exists nodes pending) w)).
Proof.
  revert pending w. induction nodes as [|node nodes IH]; intros pending w.
  - cbn. lia.
  - cbn [collect_pending]. rewrite exec_bind.
    specialize (get_task_counter node w).
    destruct (eval (get_task_if_exists node) w) as [t|].
    + specialize (IH (pending ++ [t]) (exec (get_task_if_exists node) w)). lia.
    + specialize (IH pending (exec (get_task_if_exists node) w)). lia.
Qed.

Lemma counter_start w :
  _counter (self w)
  <= _counter (self (exec (start gather get_task_if_exists) w)).
Proof.
  unfold start. rewrite exec_bind, eval_gets, exec_gets.
  rewrite exec_bind.
  set (nodes := elements (_nodes (self w))).
  pose proof (counter_create_tasks nodes [] w) as H1.
  set (w1 := exec (create_tasks nodes []) w) in *.
  rewrite exec_bind. pose proof (counter_resume w1) as H2.
  set (w2 := exec resume w1) in *.
  rewrite exec_bind, eval_gets, exec_gets.
  case_bool_decide.
  - rewrite exec_call. cbn. lia.
  - rewrite exec_bind.
    pose proof (gather_counter (eval (create_tasks nodes []) w) w2) as H3.
    set (w3 := exec (gather _) w2) in *.
    rewrite exec_bind, eval_gets, exec_gets, exec_bind.
    pose proof (counter_collect_pending (elements (_nodes (self w3))) [] w3)
      as H4.
    set (w4 := exec (collect_pending _ _ _) w3) in *.
    pose proof (gather_counter
                  (eval (collect_pending get_task_if_exists
                           (elements (_nodes (self w3))) []) w3) w4) as H5.
    lia.
Qed.

Lemma async_run_counter iters w :
  _counter (self w)
  <= _counter (self (exec (async_run gather get_task_if_exists iters) w)).
Proof.
  unfold async_run. rewrite !exec_bind, exec_modify, exec_call.
  set (w1 := transitioned _ _ _).
  pose proof (counter_start w1) as H1.
  set (w2 := exec (start _ _) w1) in *.
  rewrite eval_state, exec_state.
  assert (H0 : _counter (self w1) = _counter (self w)) by reflexivity.
  case_bool_decide.
  - change (exec (mret (state_of w2)) w2) with w2. lia.
  - rewrite exec_bind, exec_call. cbn. lia.
Qed.

End RunCounter.

(** C6. Between any two points of a run the global counter does not go down:
    whatever calls reach the scheduler in between, each of them leaves the
    counter as it is or, in the after-hook, replaces it with the maximum of
    itself and the component's counter. *)
Theorem counter_monotone (ops : list Op) (r r' : RunState) :
  run_ops ops r = Some r' ->
  _counter (self (world r)) <= _counter (self (world r'))
  /\ (forall o r'', apply_op o r' = Some r'' ->
      _counter (self (world r'')) = _counter (self (world r'))
      \/ exists component,
           o = AfterHook component
           /\ _counter (self (world r''))
              = Z.max (_counter (self (world r')))
                  (Component.counter (heap (world r') component))).
Proof.
  intros Hrun. split.
  - revert r Hrun. induction ops as [|o ops IH]; intros r Hrun.
    + injection Hrun as <-. lia.
    + cbn [run_ops] in Hrun. destruct (apply_op o r) as [r1|] eqn:Ho;
        [|discriminate].
      specialize (IH r1 Hrun).
      destruct (counter_apply_op o r r1 Ho) as [He | (c & _ & _ & He)]; lia.
  - intros o r'' Ho.
    destruct (counter_apply_op o r' r'' Ho) as [He | (c & Hc & _ & He)].
    + left. exact He.
    + right. exists c. split; assumption.
Qed.

(** ** Running *)

Section RunProperties.

Variable gather : list nat -> M unit.
Variable get_task_if_exists : nat -> M (option nat).

Lemma start_empty w :
  _nodes (self w) = ∅ ->
  exec (start gather get_task_if_exists) w =
  transitioned PipelineState.ERROR
    (Some "No components added to the pipeline") (exec resume w).
Proof.
  intros He. unfold start, exec at 1.
  rewrite bind_eq, eval_gets, exec_gets.
  rewrite He, elements_empty. cbn [create_tasks].
  rewrite bind_eq. change (exec (mret []) w) with w.
  rewrite bind_eq. rewrite bind_eq, eval_gets, exec_gets.
  rewrite nodes_resume, He, size_empty.
  rewrite bool_decide_eq_true_2 by reflexivity.
  rewrite call_eq. reflexivity.
Qed.

Lemma async_run_empty iters w :
  _nodes (self w) = ∅ ->
  async_run gather get_task_if_exists iters w =
  (PipelineState.ERROR,
   transitioned PipelineState.ERROR
     (Some "No components added to the pipeline")
     (exec resume
        (transitioned PipelineState.INITIALIZING None
           (exec stop_event_clear
              (with_self (set_min_number_of_iters_to_run iters) w))))).
Proof.
  intros He. unfold async_run.
  rewrite !bind_eq, exec_modify, exec_call, start_empty by exact He.
  rewrite eval_state, exec_state. reflexivity.
Qed.

(** C1. With no component registered, [async_run] and [run] return [ERROR]
    and leave the pipeline in the state [ERROR], whatever the number of
    iterations asked for; they return a state, and the world they leave does
    not depend on any task. *)
Theorem run_without_components (iters : Z) (w : World) :
  _nodes (self w) = ∅ ->
  eval (async_run gather get_task_if_exists iters) w = PipelineState.ERROR
  /\ state_of (exec (async_run gather get_task_if_exists iters) w)
     = PipelineState.ERROR
  /\ eval (run gather get_task_if_exists iters) w = PipelineState.ERROR
  /\ state_of (exec (run gather get_task_if_exists iters) w)
     = PipelineState.ERROR
  /\ exec (async_run gather get_task_if_exists iters) w
     = transitioned PipelineState.ERROR
         (Some "No components added to the pipeline")
         (exec resume
            (transitioned PipelineState.INITIALIZING None
               (exec stop_event_clear
                  (with_self (set_min_number_of_iters_to_run iters) w)))).
Proof.
  intros He. unfold run, eval, exec. rewrite !bind_eq. unfold eval, exec.
  rewrite (async_run_empty iters w He). cbn [fst snd].
  repeat split.
Qed.

(** C8. Once [start] is over, so that every task has been waited for,
    [async_run] returns the state of the pipeline and leaves the world as it
    is when that state is [FORCED_STOP] or [ERROR]; otherwise it makes the
    transition to [ENDED] and returns [ENDED]. *)
Theorem async_run_final_state (iters : Z) (w : World) :
  let awaited :=
    exec (modify (with_self (set_min_number_of_iters_to_run iters));;
          stop_event_clear;;
          __call__ PipelineState.INITIALIZING None;;
          start gather get_task_if_exists) w in
  (state_of awaited = PipelineState.FORCED_STOP
   \/ state_of awaited = PipelineState.ERROR ->
   async_run gather get_task_if_exists iters w = (state_of awaited, awaited))
  /\ (state_of awaited ≠ PipelineState.FORCED_STOP ->
      state_of awaited ≠ PipelineState.ERROR ->
      async_run gather get_task_if_exists iters w
      = (PipelineState.ENDED, transitioned PipelineState.ENDED None awaited)
      /\ state_of (exec (async_run gather get_task_if_exists iters) w)
         = PipelineState.ENDED).
Proof.
  cbn zeta.
  set (awaited := exec (_ ;; _) w).
  assert (Ha : async_run gather get_task_if_exists iters w
               = (if bool_decide (state_of awaited
                                  ∈ [PipelineState.FORCED_STOP;
                                     PipelineState.ERROR])
                  then mret (state_of awaited)
                  else __call__ PipelineState.ENDED None;; state) awaited)
    by reflexivity.
  clearbody awaited. split.
  - intros H. rewrite Ha, bool_decide_eq_true_2; [reflexivity|].
    rewrite !elem_of_cons. tauto.
  - intros H1 H2.
    assert (Hb : async_run gather get_task_if_exists iters w
                 = (PipelineState.ENDED,
                    transitioned PipelineState.ENDED None awaited)).
    { rewrite Ha, bool_decide_eq_false_2.
      - rewrite bind_eq, exec_call. reflexivity.
      - rewrite !elem_of_cons, elem_of_nil. tauto. }
    split; [exact Hb|]. unfold exec. rewrite Hb. reflexivity.
Qed.

End RunProperties.

(** * The theorems at sample worlds *)

Lemma run_without_components_witness :
  _nodes (self World_init) = ∅
  /\ eval (run gather_none no_task 3) World_init = PipelineState.ERROR.
Proof.
  split; [reflexivity|].
  destruct (run_without_components gather_none no_task 3 World_init eq_refl)
    as (_ & _ & H & _).
  exact H.
Defined.

Lemma get_component_stopping_iteration_spec_witness :
  eval (get_component_stopping_iteration 0) World_bounded = 4
  /\ eval (get_component_stopping_iteration 0) World_init = 0.
Proof.
  split.
  - destruct (get_component_stopping_iteration_spec 0 World_bounded)
      as (H & _ & _).
    apply H. reflexivity.
  - destruct (get_component_stopping_iteration_spec 0 World_init)
      as (_ & H & _).
    apply H. reflexivity.
Defined.

Lemma after_component_hook_running_witness :
  _stop_event (self World_bounded) = false
  /\ _counter (self (exec (after_component_hook 0) World_bounded)) = 2
  /\ Component.state (heap (exec (after_component_hook 0) World_bounded) 0)
     = ComponentState.STOPPED_AT_ITER.
Proof.
  split; [reflexivity|].
  destruct (after_component_hook_running 0 World_bounded eq_refl)
    as (Hc & _ & Hs & _).
  split; [exact Hc|]. apply Hs. split; [discriminate|].
  cbn. discriminate.
Defined.

Lemma after_component_hook_forced_stop_witness :
  _stop_event (self World_stopped) = true
  /\ Component.state (heap (exec (after_component_hook 0) World_stopped) 0)
     = ComponentState.FORCED_STOP.
Proof.
  split; [reflexivity|].
  destruct (after_component_hook_forced_stop 0 World_stopped eq_refl)
    as (H & _).
  exact H.
Defined.

Lemma after_component_hook_forced_stop_frame_witness :
  _stop_event (self World_stopped) = true
  /\ self (exec (after_component_hook 0) World_stopped) = self World_stopped.
Proof.
  split; [reflexivity|].
  destruct (after_component_hook_forced_stop_frame 0 World_stopped eq_refl)
    as (H & _).
  exact H.
Defined.

Lemma negative_iterations_witness :
  _min_number_of_iters_to_run (self World_negative) < 0
  /\ eval (get_component_stopping_iteration 0) World_negative = 0
  /\ trace (exec (after_component_hook 0) World_negative)
     = trace World_negative ++ [SetState 0 ComponentState.STOPPED_AT_ITER].
Proof.
  split; [reflexivity|].
  destruct (negative_iterations 0 World_negative eq_refl) as (H0 & _ & H).
  split; [exact H0|].
  destruct (H eq_refl) as [Hiff _]. apply Hiff. cbn. discriminate.
Defined.

Lemma counter_monotone_witness :
  run_ops sample_ops Run_bounded = Some sample_end
  /\ _counter (self (world Run_bounded)) <= _counter (self (world sample_end)).
Proof.
  split; [vm_compute; reflexivity|].
  destruct (counter_monotone sample_ops Run_bounded sample_end
              ltac:(vm_compute; reflexivity)) as [H _].
  exact H.
Defined.

Lemma async_run_final_state_witness :
  eval (async_run gather_stopped no_task 0) World_one
  = PipelineState.FORCED_STOP
  /\ eval (async_run gather_none no_task 0) World_one = PipelineState.ENDED.
Proof.
  split.
  - destruct (async_run_final_state gather_stopped no_task 0 World_one)
      as [H _].
    unfold eval. rewrite H.
    + vm_compute. reflexivity.
    + left. vm_compute. reflexivity.
  - destruct (async_run_final_state gather_none no_task 0 World_one)
      as [_ H].
    destruct H as [H _].
    + vm_compute. discriminate.
    + vm_compute. discriminate.
    + unfold eval. rewrite H. reflexivity.
Defined.

(** * Further properties of the scheduler *)

(** ** Registering components *)

Lemma foldl_add_union (components : list nat) (s : gset nat) :
  foldl (fun s component => s ∪ {[component]}) s components
  = s ∪ list_to_set components.
Proof.
  revert s. induction components as [|c components IH]; intros s; cbn.
  - rewrite union_empty_r_L. reflexivity.
  - rewrite IH, (assoc_L (∪)). reflexivity.
Qed.

Lemma add_nodes_eq components w :
  exec (add_nodes components) w
  = with_self (set_nodes (_nodes (self w) ∪ list_to_set components)) w.
Proof.
  unfold add_nodes. rewrite exec_modify. unfold with_self.
  rewrite foldl_add_union. reflexivity.
Qed.

(** X1. [add_nodes] makes the node set the union of the old set and the given
    components and changes nothing else; hence adding in two calls or in one,
    in either order, gives the same world, and adding the same components
    again changes nothing. *)
Theorem add_nodes_union (l1 l2 : list nat) (w : World) :
  exec (add_nodes l1) w
  = with_self (set_nodes (_nodes (self w) ∪ list_to_set l1)) w
  /\ exec (add_nodes l2) (exec (add_nodes l1) w) = exec (add_nodes (l1 ++ l2)) w
  /\ exec (add_nodes (l1 ++ l2)) w = exec (add_nodes (l2 ++ l1)) w
  /\ exec (add_nodes l1) (exec (add_nodes l1) w) = exec (add_nodes l1) w.
Proof.
  rewrite !add_nodes_eq. unfold with_self. cbn.
  rewrite !list_to_set_app_L.
  split; [reflexivity|]. split; [|split].
  - rewrite (assoc_L (∪)). reflexivity.
  - rewrite (union_comm_L (list_to_set l1)). reflexivity.
  - rewrite <- (assoc_L (∪)), union_idemp_L. reflexivity.
Qed.

(** ** The verbose mode *)

Lemma verbose_loop (l : list nat) (w : World) :
  let body := fun node : nat =>
    v' ← tracker_verbose;
    modify_component node (fun c =>
      Component.set_verbose c (bool_decide (v' = VerboseMode.COMPONENT))) in
  let w' := exec (for_each l body) w in
  self w' = self w
  /\ trace w' = trace w
  /\ forall i,
       heap w' i
       = if decide (i ∈ l)
         then Component.set_verbose (heap w i)
                (bool_decide (verbose_of w = VerboseMode.COMPONENT))
         else heap w i.
Proof.
  cbn zeta. revert w. induction l as [|x l IH]; intros w.
  - split; [reflexivity|]. split; [reflexivity|]. intros i.
    rewrite decide_False; [reflexivity|]. apply not_elem_of_nil.
  - cbn [for_each]. rewrite exec_bind.
    set (w1 := exec (_ ≫= _) w).
    assert (H1 : self w1 = self w) by reflexivity.
    assert (H2 : trace w1 = trace w) by reflexivity.
    assert (H3 : heap w1
                 = update x (fun c => Component.set_verbose c
                     (bool_decide (verbose_of w = VerboseMode.COMPONENT)))
                     (heap w)) by reflexivity.
    assert (Hv : verbose_of w1 = verbose_of w) by reflexivity.
    clearbody w1. destruct (IH w1) as (Hs & Ht & Hh).
    split; [congruence|]. split; [congruence|].
    intros i. rewrite Hh, Hv, H3. unfold update.
    destruct (decide (i = x)) as [->|Hne].
    + rewrite (decide_True (P := x ∈ x :: l))
        by (rewrite elem_of_cons; tauto).
      destruct (decide (x ∈ l)); reflexivity.
    + destruct (decide (i ∈ l)) as [Hin|Hnin].
      * rewrite decide_True by (rewrite elem_of_cons; tauto).
        reflexivity.
      * rewrite decide_False; [reflexivity|].
        rewrite elem_of_cons. tauto.
Qed.

Lemma set_verbose_mode_same mode w :
  verbose_of w = mode -> exec (set_verbose_mode mode) w = w.
Proof.
  intros Hv. unfold set_verbose_mode. rewrite exec_bind.
  change (eval tracker_verbose w) with (verbose_of w).
  rewrite bool_decide_eq_true_2 by exact Hv. reflexivity.
Qed.

Lemma set_verbose_mode_changed mode w :
  verbose_of w ≠ mode ->
  let w' := exec (set_verbose_mode mode) w in
  self w' = set_tracker (_PipelineState.mk (state_of w) mode) (self w)
  /\ trace w' = trace w
  /\ forall i,
       heap w' i
       = if decide (i ∈ _nodes (self w))
         then Component.set_verbose (heap w i)
                (bool_decide (mode = VerboseMode.COMPONENT))
         else heap w i.
Proof.
  intros Hv. cbn zeta. unfold set_verbose_mode. rewrite exec_bind.
  change (eval tracker_verbose w) with (verbose_of w).
  rewrite bool_decide_eq_false_2 by exact Hv.
  rewrite !exec_bind, eval_gets, exec_gets.
  change (exec tracker_verbose w) with w.
  set (w1 := exec (tracker_set_verbose mode) w).
  destruct (verbose_loop (elements (_nodes (self w1))) w1) as (Hs & Ht & Hh).
  cbn zeta in Hs, Ht, Hh.
  split; [rewrite Hs; reflexivity|]. split; [rewrite Ht; reflexivity|].
  intros i. rewrite Hh. change (verbose_of w1) with mode.
  change (_nodes (self w1)) with (_nodes (self w)).
  change (heap w1 i) with (heap w i).
  destruct (decide (i ∈ _nodes (self w))) as [Hin|Hnin].
  - rewrite decide_True by (apply elem_of_elements; exact Hin). reflexivity.
  - rewrite decide_False; [reflexivity|]. rewrite elem_of_elements. exact Hnin.
Qed.

(** X2. [set_verbose_mode] with a mode other than the current one stores the
    mode in the tracker and gives every registered component the flag
    "the mode is [COMPONENT]", so that leaving [COMPONENT] clears the flags;
    components that are not registered keep their flag, the pipeline state
    stays, and nothing is logged. *)
Theorem set_verbose_mode_broadcast (mode : VerboseMode.t) (w : World) :
  verbose_of w ≠ mode ->
  let w' := exec (set_verbose_mode mode) w in
  verbose_of w' = mode
  /\ state_of w' = state_of w
  /\ self w' = set_tracker (_PipelineState.mk (state_of w) mode) (self w)
  /\ trace w' = trace w
  /\ (forall i, i ∈ _nodes (self w) ->
      heap w' i
      = Component.set_verbose (heap w i)
          (bool_decide (mode = VerboseMode.COMPONENT)))
  /\ (forall i, i ∉ _nodes (self w) -> heap w' i = heap w i).
Proof.
  intros Hv. cbn zeta.
  destruct (set_verbose_mode_changed mode w Hv) as (Hs & Ht & Hh).
  cbn zeta in Hs, Ht, Hh.
  split; [unfold verbose_of; rewrite Hs; reflexivity|].
  split; [unfold state_of; rewrite Hs; reflexivity|].
  split; [exact Hs|]. split; [exact Ht|]. split.
  - intros i Hi. rewrite Hh, decide_True by exact Hi. reflexivity.
  - intros i Hi. rewrite Hh, decide_False by exact Hi. reflexivity.
Qed.

Lemma verbose_of_set_verbose_mode mode w :
  verbose_of (exec (set_verbose_mode mode) w) = mode.
Proof.
  destruct (decide (verbose_of w = mode)) as [Hv|Hv].
  - rewrite set_verbose_mode_same by exact Hv. exact Hv.
  - destruct (set_verbose_mode_changed mode w Hv) as (Hs & _).
    cbn zeta in Hs. unfold verbose_of. rewrite Hs. reflexivity.
Qed.

(** X3. [set_verbose_mode] with the current mode changes nothing at all.
    Hence setting a mode twice is setting it once, and a component that is
    registered after a mode was set is not reached by setting that mode
    again: its flag stays as it was. *)
Theorem set_verbose_mode_idempotent (mode : VerboseMode.t)
    (components : list nat) (w : World) :
  (verbose_of w = mode -> exec (set_verbose_mode mode) w = w)
  /\ exec (set_verbose_mode mode) (exec (set_verbose_mode mode) w)
     = exec (set_verbose_mode mode) w
  /\ exec (set_verbose_mode mode)
       (exec (add_nodes components) (exec (set_verbose_mode mode) w))
     = exec (add_nodes components) (exec (set_verbose_mode mode) w).
Proof.
  split; [apply set_verbose_mode_same|]. split.
  - apply set_verbose_mode_same, verbose_of_set_verbose_mode.
  - apply set_verbose_mode_same.
    rewrite add_nodes_eq. apply verbose_of_set_verbose_mode.
Qed.

(** ** What the operator's calls and the hooks leave alone *)

(** X4. [pause], [resume] and [stop] leave the node set, the global counter,
    the minimum number of iterations, the verbose mode and every component
    as they are; [pause] and [resume] leave the stop flag as well. *)
Theorem control_frame (w : World) :
  let kept (m : M unit) :=
    _nodes (self (exec m w)) = _nodes (self w)
    /\ _counter (self (exec m w)) = _counter (self w)
    /\ _min_number_of_iters_to_run (self (exec m w))
       = _min_number_of_iters_to_run (self w)
    /\ verbose_of (exec m w) = verbose_of w
    /\ heap (exec m w) = heap w in
  kept pause /\ kept resume /\ kept stop
  /\ _stop_event (self (exec pause w)) = _stop_event (self w)
  /\ _stop_event (self (exec resume w)) = _stop_event (self w).
Proof.
  cbv beta zeta. rewrite stop_eq, pause_eq, resume_eq.
  destruct (_resume_event (self w)); cbn; repeat split.
Qed.

(** X5. The hooks never write the pipeline state, the gate, the stop flag,
    the node set or the minimum number of iterations: the before-hook leaves
    the whole pipeline object as it is and the after-hook changes at most its
    counter.  In the store they write the state of the one component and
    nothing else. *)
Theorem hooks_frame (component : nat) (w : World) :
  let kept (w' : World) :=
    (forall j, j ≠ component -> heap w' j = heap w j)
    /\ Component.counter (heap w' component)
       = Component.counter (heap w component)
    /\ Component.stopping_iteration (heap w' component)
       = Component.stopping_iteration (heap w component)
    /\ Component.pipeline (heap w' component)
       = Component.pipeline (heap w component)
    /\ Component.verbose (heap w' component)
       = Component.verbose (heap w component) in
  let after := exec (after_component_hook component) w in
  self (exec (before_component_hook_enter component) w) = self w
  /\ self (exec (before_component_hook_leave component) w) = self w
  /\ self after = set_counter (_counter (self after)) (self w)
  /\ kept (exec (before_component_hook_enter component) w)
  /\ kept (exec (before_component_hook_leave component) w)
  /\ kept after.
Proof.
  cbv beta zeta.
  assert (Hset : forall s w0,
    (forall j, j ≠ component ->
       heap (exec (component_set_state component s) w0) j = heap w0 j)
    /\ Component.counter (heap (exec (component_set_state component s) w0) component)
       = Component.counter (heap w0 component)
    /\ Component.stopping_iteration
         (heap (exec (component_set_state component s) w0) component)
       = Component.stopping_iteration (heap w0 component)
    /\ Component.pipeline (heap (exec (component_set_state component s) w0) component)
       = Component.pipeline (heap w0 component)
    /\ Component.verbose (heap (exec (component_set_state component s) w0) component)
       = Component.verbose (heap w0 component)).
  { intros s w0. rewrite component_set_state_eq. cbn. rewrite update_same.
    repeat split. intros j Hj. apply update_other. exact Hj. }
  assert (Henter : exec (before_component_hook_enter component) w
                   = if _resume_event (self w) then w
                     else exec (component_set_state component
                                  ComponentState.PAUSED) w).
  { unfold before_component_hook_enter. rewrite exec_bind.
    unfold resume_event_is_set. rewrite eval_gets, exec_gets.
    destruct (_resume_event (self w)); reflexivity. }
  rewrite Henter, after_component_hook_eq.
  unfold before_component_hook_leave.
  split; [destruct (_resume_event (self w)); reflexivity|].
  split; [reflexivity|]. split; [|split; [|split]].
  - destruct_world w. cbn. destruct flag; [reflexivity|].
    destruct (bool_decide _ && bool_decide _); reflexivity.
  - destruct (_resume_event (self w)); [repeat split | apply Hset].
  - apply Hset.
  - destruct (_stop_event (self w)); [apply Hset|]. cbn zeta.
    destruct (bool_decide _ && bool_decide _); [|repeat split].
    exact (Hset ComponentState.STOPPED_AT_ITER (with_self _ w)).
Qed.

(** ** How the operator's calls compose *)

(** X6. From every world, [pause()] followed by [resume()] ends with the gate
    open and the pipeline [RUNNING], and [resume()] followed by [pause()]
    ends with the gate closed and the pipeline [PAUSED]: neither call looks
    at the pipeline state it replaces. *)
Theorem pause_resume_round_trip (w : World) :
  _resume_event (self (exec resume (exec pause w))) = true
  /\ state_of (exec resume (exec pause w)) = PipelineState.RUNNING
  /\ _resume_event (self (exec pause (exec resume w))) = false
  /\ state_of (exec pause (exec resume w)) = PipelineState.PAUSED.
Proof.
  rewrite (pause_eq w), (resume_eq w).
  destruct (_resume_event (self w)) eqn:E.
  - rewrite resume_eq, pause_eq, E. repeat split.
  - rewrite resume_eq, pause_eq, E. repeat split.
Qed.

(** X7. After [stop()] a [resume()] changes nothing, but a [pause()] closes
    the gate again and replaces the state [FORCED_STOP] by [PAUSED], with the
    stop flag still set. *)
Theorem pause_after_stop (w : World) :
  exec resume (exec stop w) = exec stop w
  /\ state_of (exec pause (exec stop w)) = PipelineState.PAUSED
  /\ _resume_event (self (exec pause (exec stop w))) = false
  /\ _stop_event (self (exec pause (exec stop w))) = true.
Proof.
  assert (Hgate : _resume_event (self (exec stop w)) = true).
  { rewrite stop_eq. cbn. apply resume_gate_open. }
  rewrite resume_eq, pause_eq, Hgate. split; [reflexivity|].
  rewrite stop_eq. repeat split.
Qed.

(** ** Stopping and pausing while components run *)

Lemma stop_flag_set_verbose_mode mode w :
  _stop_event (self (exec (set_verbose_mode mode) w)) = _stop_event (self w).
Proof.
  destruct (decide (verbose_of w = mode)) as [Hv|Hv].
  - rewrite set_verbose_mode_same by exact Hv. reflexivity.
  - destruct (set_verbose_mode_changed mode w Hv) as (Hs & _).
    cbn zeta in Hs. rewrite Hs. reflexivity.
Qed.

Lemma stop_flag_after_hook component w :
  _stop_event (self (exec (after_component_hook component) w))
  = _stop_event (self w).
Proof.
  rewrite after_component_hook_eq.
  destruct (_stop_event (self w)) eqn:E; [exact E|]. cbn zeta.
  destruct (bool_decide _ && bool_decide _); exact E.
Qed.

(** No call that reaches the scheduler during a run clears the stop flag. *)
Lemma stop_flag_apply_op o r r' :
  apply_op o r = Some r' ->
  _stop_event (self (world r)) = true -> _stop_event (self (world r')) = true.
Proof.
  destruct o; cbn [apply_op]; intros H Hf.
  - injection H as <-. cbn [world]. rewrite pause_eq.
    destruct (_resume_event (self (world r))); exact Hf.
  - injection H as <-. cbn [world]. rewrite resume_eq.
    destruct (_resume_event (self (world r))); exact Hf.
  - injection H as <-. cbn [world]. rewrite stop_eq. reflexivity.
  - injection H as <-. exact Hf.
  - injection H as <-. cbn [world]. rewrite stop_flag_set_verbose_mode.
    exact Hf.
  - destruct (_resume_event (self (world r))) eqn:E; injection H as <-;
      cbn [world].
    + rewrite before_component_hook_open by exact E. exact Hf.
    + rewrite before_component_hook_enter_eq, E. exact Hf.
  - destruct (wake component (waiters r)); [|discriminate].
    injection H as <-. exact Hf.
  - injection H as <-. cbn [world]. rewrite stop_flag_after_hook. exact Hf.
  - injection H as <-. exact Hf.
Qed.

Lemma stop_flag_run_ops ops r r' :
  run_ops ops r = Some r' ->
  _stop_event (self (world r)) = true -> _stop_event (self (world r')) = true.
Proof.
  revert r. induction ops as [|o ops IH]; intros r Hrun Hf.
  - injection Hrun as <-. exact Hf.
  - cbn [run_ops] in Hrun.
    destruct (apply_op o r) as [r1|] eqn:Ho; [|discriminate].
    apply (IH r1 Hrun). exact (stop_flag_apply_op o r r1 Ho Hf).
Qed.

(** X8. Once [stop()] was called, whatever calls reach the scheduler
    afterwards in that run, the stop flag stays set; so the next after-hook of
    any component writes [FORCED_STOP] into it and leaves the global counter
    alone, even when a [pause()] has replaced the pipeline state since. *)
Theorem stop_is_sticky (ops : list Op) (component : nat) (r r' : RunState) :
  run_ops (CallStop :: ops) r = Some r' ->
  _stop_event (self (world r')) = true
  /\ Component.state
       (heap (exec (after_component_hook component) (world r')) component)
     = ComponentState.FORCED_STOP
  /\ _counter (self (exec (after_component_hook component) (world r')))
     = _counter (self (world r')).
Proof.
  intros Hrun. cbn [run_ops apply_op] in Hrun.
  assert (Hf : _stop_event (self (world r')) = true).
  { apply (stop_flag_run_ops ops _ r' Hrun).
    cbn [world]. rewrite stop_eq. reflexivity. }
  split; [exact Hf|].
  rewrite after_component_hook_eq, Hf, component_set_state_eq. cbn.
  rewrite update_same. split; reflexivity.
Qed.




(** ** A run from its start to its end *)

Lemma create_tasks_eq (nodes tasks : list nat) (w : World) :
  eval (create_tasks nodes tasks) w = tasks ++ nodes
  /\ self (exec (create_tasks nodes tasks) w) = self w
  /\ trace (exec (create_tasks nodes tasks) w) = trace w
  /\ forall i,
       heap (exec (create_tasks nodes tasks) w) i
       = if decide (i ∈ nodes) then Component.set_pipeline (heap w i)
         else heap w i.
Proof.
  revert tasks w. induction nodes as [|node nodes IH]; intros tasks w.
  - cbn. rewrite app_nil_r. repeat split.
  - cbn [create_tasks].
    change (eval (?m ≫= ?k) w) with (eval (k (eval m w)) (exec m w)).
    rewrite exec_bind.
    set (w1 := exec (modify_component node Component.set_pipeline) w).
    destruct (IH (tasks ++ [node]) w1) as (He & Hs & Ht & Hh).
    split; [rewrite He, <- app_assoc; reflexivity|].
    split; [rewrite Hs; reflexivity|]. split; [rewrite Ht; reflexivity|].
    intros i. rewrite Hh.
    change (heap w1 i) with (update node Component.set_pipeline (heap w) i).
    unfold update. destruct (decide (i = node)) as [->|Hne].
    + rewrite (decide_True (P := node ∈ node :: nodes))
        by (rewrite elem_of_cons; tauto).
      destruct (decide (node ∈ nodes)); reflexivity.
    + destruct (decide (i ∈ nodes)) as [Hin|Hnin].
      * rewrite decide_True by (rewrite elem_of_cons; tauto). reflexivity.
      * rewrite decide_False; [reflexivity|]. rewrite elem_of_cons. tauto.
Qed.

(** What [resume] leaves alone and what it sets. *)
Lemma resume_fields w :
  _stop_event (self (exec resume w)) = _stop_event (self w)
  /\ _min_number_of_iters_to_run (self (exec resume w))
     = _min_number_of_iters_to_run (self w)
  /\ _resume_event (self (exec resume w)) = true
  /\ state_of (exec resume w)
     = (if _resume_event (self w) then state_of w else PipelineState.RUNNING)
  /\ _nodes (self (exec resume w)) = _nodes (self w)
  /\ _counter (self (exec resume w)) = _counter (self w)
  /\ heap (exec resume w) = heap w.
Proof.
  rewrite resume_eq. destruct (_resume_event (self w)) eqn:E; repeat split.
  exact E.
Qed.

Section RunFromStartToEnd.

Variable gather : list nat -> M unit.
Variable get_task_if_exists : nat -> M (option nat).

Lemma start_launch w :
  _nodes (self w) ≠ ∅ ->
  let tasks := elements (_nodes (self w)) in
  let w0 := exec resume (exec (create_tasks tasks []) w) in
  start gather get_task_if_exists w
  = (gather tasks;;
     nodes' ← gets (fun w => elements (_nodes (self w)));
     pending_tasks ← collect_pending get_task_if_exists nodes' [];
     gather pending_tasks) w0.
Proof.
  intros Hne. cbn zeta. unfold start.
  rewrite bind_eq, eval_gets, exec_gets.
  set (tasks := elements (_nodes (self w))).
  destruct (create_tasks_eq tasks [] w) as (He & Hs & _).
  rewrite bind_eq, He. cbn [app].
  set (w1 := exec (create_tasks tasks []) w) in *.
  rewrite bind_eq. rewrite bind_eq, eval_gets, exec_gets.
  rewrite nodes_resume, Hs.
  rewrite bool_decide_eq_false_2; [reflexivity|].
  intros Hz. apply Hne. apply size_empty_inv in Hz.
  apply leibniz_equiv. exact Hz.
Qed.

(** X11. With at least one registered component, [async_run] reaches its
    first wait with one task per registered component, every registered
    component bound to the scheduler and no other component touched, the stop
    flag cleared, the bound recorded and the gate open.  The pipeline state
    is then [RUNNING] only if the gate was closed at the call: on a gate that
    is already open, as a run that ended leaves it, the state stays
    [INITIALIZING] while the components run. *)
Theorem async_run_launch (iters : Z) (w : World) :
  _nodes (self w) ≠ ∅ ->
  exists w0,
    async_run gather get_task_if_exists iters w
    = await_and_finish gather get_task_if_exists
        (elements (_nodes (self w))) w0
    /\ _stop_event (self w0) = false
    /\ _min_number_of_iters_to_run (self w0) = iters
    /\ _resume_event (self w0) = true
    /\ state_of w0
       = (if _resume_event (self w) then PipelineState.INITIALIZING
          else PipelineState.RUNNING)
    /\ _nodes (self w0) = _nodes (self w)
    /\ _counter (self w0) = _counter (self w)
    /\ (forall i, i ∈ _nodes (self w) ->
        heap w0 i = Component.set_pipeline (heap w i))
    /\ (forall i, i ∉ _nodes (self w) -> heap w0 i = heap w i).
Proof.
  intros Hne.
  set (wi := transitioned PipelineState.INITIALIZING None
               (exec stop_event_clear
                  (with_self (set_min_number_of_iters_to_run iters) w))).
  assert (Hrun : async_run gather get_task_if_exists iters w
                 = (start gather get_task_if_exists;;
                    s ← state;
                    if bool_decide (s ∈ [PipelineState.FORCED_STOP;
                                          PipelineState.ERROR])
                    then mret s
                    else __call__ PipelineState.ENDED None;; state) wi).
  { unfold async_run. rewrite !bind_eq, exec_modify, exec_call.
    reflexivity. }
  assert (Hnodes : _nodes (self wi) = _nodes (self w)) by reflexivity.
  assert (Hflag : _stop_event (self wi) = false) by reflexivity.
  assert (Hmin : _min_number_of_iters_to_run (self wi) = iters)
    by reflexivity.
  assert (Hgate : _resume_event (self wi) = _resume_event (self w))
    by reflexivity.
  assert (Hstate : state_of wi = PipelineState.INITIALIZING) by reflexivity.
  assert (Hcounter : _counter (self wi) = _counter (self w)) by reflexivity.
  assert (Hheap : heap wi = heap w) by reflexivity.
  clearbody wi.
  assert (Hne' : _nodes (self wi) ≠ ∅) by (rewrite Hnodes; exact Hne).
  pose proof (start_launch wi Hne') as Hstart. cbn zeta in Hstart.
  rewrite Hnodes in Hstart.
  set (tasks := elements (_nodes (self w))) in *.
  destruct (create_tasks_eq tasks [] wi) as (_ & Hs & _ & Hh).
  set (w1 := exec (create_tasks tasks []) wi) in *. clearbody w1.
  destruct (resume_fields w1) as (R1 & R2 & R3 & R4 & R5 & R6 & R7).
  exists (exec resume w1). split.
  - rewrite Hrun. unfold await_and_finish.
    rewrite bind_eq. unfold eval, exec. rewrite Hstart. reflexivity.
  - rewrite R1, R2, R3, R4, R5, R6, R7. unfold state_of. rewrite !Hs.
    fold (state_of wi). rewrite Hflag, Hmin, Hgate, Hstate, Hnodes, Hcounter.
    repeat split.
    + intros i Hi. rewrite Hh, Hheap.
      rewrite decide_True by (apply elem_of_elements; exact Hi). reflexivity.
    + intros i Hi. rewrite Hh, Hheap.
      rewrite decide_False; [reflexivity|].
      unfold tasks. rewrite elem_of_elements. exact Hi.
Qed.

(** X12. The value [async_run] returns is the state it leaves the pipeline
    in, and it is [ENDED], [FORCED_STOP] or [ERROR]; [run] returns the same
    value and leaves the same world. *)
Theorem async_run_returns_final_state (iters : Z) (w : World) :
  eval (async_run gather get_task_if_exists iters) w
  = state_of (exec (async_run gather get_task_if_exists iters) w)
  /\ eval (async_run gather get_task_if_exists iters) w
     ∈ [PipelineState.ENDED; PipelineState.FORCED_STOP; PipelineState.ERROR]
  /\ run gather get_task_if_exists iters w
     = async_run gather get_task_if_exists iters w.
Proof.
  set (awaited :=
    exec (modify (with_self (set_min_number_of_iters_to_run iters));;
          stop_event_clear;;
          __call__ PipelineState.INITIALIZING None;;
          start gather get_task_if_exists) w).
  assert (Ha : async_run gather get_task_if_exists iters w
               = (if bool_decide (state_of awaited
                                  ∈ [PipelineState.FORCED_STOP;
                                     PipelineState.ERROR])
                  then mret (state_of awaited)
                  else __call__ PipelineState.ENDED None;; state) awaited)
    by reflexivity.
  clearbody awaited.
  assert (Hr : run gather get_task_if_exists iters w
               = (state_of (exec (async_run gather get_task_if_exists iters) w),
                  exec (async_run gather get_task_if_exists iters) w)).
  { unfold run. rewrite bind_eq. reflexivity. }
  rewrite Hr. unfold eval, exec. rewrite Ha.
  case_bool_decide as Hs.
  - cbn. split; [reflexivity|]. split; [|reflexivity].
    rewrite !elem_of_cons in Hs. rewrite !elem_of_cons. tauto.
  - rewrite bind_eq, exec_call. cbn. split; [reflexivity|].
    split; [|reflexivity]. rewrite !elem_of_cons. tauto.
Qed.

End RunFromStartToEnd.

(** ** Runs whose tasks end by themselves *)

Section RunEnds.

Variable gather : list nat -> M unit.
Variable get_task_if_exists : nat -> M (option nat).

(** The tasks do not leave the pipeline in [FORCED_STOP] or [ERROR]. *)
Hypothesis gather_alive : forall tasks w,
  state_of w ≠ PipelineState.FORCED_STOP ->
  state_of w ≠ PipelineState.ERROR ->
  state_of (exec (gather tasks) w) ≠ PipelineState.FORCED_STOP
  /\ state_of (exec (gather tasks) w) ≠ PipelineState.ERROR.
Hypothesis get_task_alive : forall node w,
  state_of (exec (get_task_if_exists node) w) = state_of w.

Lemma collect_pending_state nodes pending w :
  state_of (exec (collect_pending get_task_if_exists nodes pending) w)
  = state_of w.
Proof.
  revert pending w. induction nodes as [|node nodes IH]; intros pending w;
    [reflexivity|].
  cbn [collect_pending]. rewrite exec_bind.
  destruct (eval (get_task_if_exists node) w); rewrite IH;
    apply get_task_alive.
Qed.

(** X13. With at least one registered component and tasks that do not leave
    the pipeline in [FORCED_STOP] or [ERROR], [async_run] returns [ENDED] and
    leaves the pipeline in [ENDED], whatever state it finds: a pipeline left
    in [ERROR] or [FORCED_STOP] by an earlier run can be run again. *)
Theorem async_run_ends (iters : Z) (w : World) :
  _nodes (self w) ≠ ∅ ->
  eval (async_run gather get_task_if_exists iters) w = PipelineState.ENDED
  /\ state_of (exec (async_run gather get_task_if_exists iters) w)
     = PipelineState.ENDED.
Proof.
  intros Hne.
  set (wi := transitioned PipelineState.INITIALIZING None
               (exec stop_event_clear
                  (with_self (set_min_number_of_iters_to_run iters) w))).
  assert (Hrun : async_run gather get_task_if_exists iters w
                 = (start gather get_task_if_exists;;
                    s ← state;
                    if bool_decide (s ∈ [PipelineState.FORCED_STOP;
                                          PipelineState.ERROR])
                    then mret s
                    else __call__ PipelineState.ENDED None;; state) wi).
  { unfold async_run. rewrite !bind_eq, exec_modify, exec_call.
    reflexivity. }
  assert (Hnodes : _nodes (self wi) = _nodes (self w)) by reflexivity.
  assert (Hstate : state_of wi = PipelineState.INITIALIZING) by reflexivity.
  clearbody wi.
  assert (Hne' : _nodes (self wi) ≠ ∅) by (rewrite Hnodes; exact Hne).
  pose proof (start_launch gather get_task_if_exists wi Hne') as Hstart.
  cbn zeta in Hstart.
  set (tasks := elements (_nodes (self wi))) in *.
  destruct (create_tasks_eq tasks [] wi) as (_ & Hs & _).
  set (w1 := exec (create_tasks tasks []) wi) in *. clearbody w1.
  destruct (resume_fields w1) as (_ & _ & _ & R & _).
  set (w0 := exec resume w1) in *. clearbody w0.
  assert (H0 : state_of w0 ≠ PipelineState.FORCED_STOP
               /\ state_of w0 ≠ PipelineState.ERROR).
  { rewrite R. unfold state_of. rewrite Hs. fold (state_of wi).
    rewrite Hstate. destruct (_resume_event (self wi)); split; discriminate. }
  assert (Hend : state_of (exec (start gather get_task_if_exists) wi)
                 ≠ PipelineState.FORCED_STOP
                 /\ state_of (exec (start gather get_task_if_exists) wi)
                    ≠ PipelineState.ERROR).
  { assert (He : exec (start gather get_task_if_exists) wi
                 = exec (gather tasks;;
                         nodes' ← gets (fun w => elements (_nodes (self w)));
                         pending_tasks ← collect_pending get_task_if_exists
                                           nodes' [];
                         gather pending_tasks) w0)
      by (unfold exec; rewrite Hstart; reflexivity).
    rewrite He, !exec_bind, eval_gets, exec_gets.
    destruct H0 as [Ha Hb].
    destruct (gather_alive tasks w0 Ha Hb) as [Hc Hd].
    set (w2 := exec (gather tasks) w0) in *. clearbody w2.
    pose proof (collect_pending_state (elements (_nodes (self w2))) [] w2)
      as Hp.
    set (w3 := exec (collect_pending _ _ _) w2) in *.
    apply gather_alive; rewrite Hp; assumption. }
  set (w4 := exec (start gather get_task_if_exists) wi) in *.
  assert (Hfin : async_run gather get_task_if_exists iters w
                 = (PipelineState.ENDED,
                    transitioned PipelineState.ENDED None w4)).
  { rewrite Hrun, bind_eq. fold w4. clearbody w4.
    rewrite bind_eq, eval_state, exec_state.
    rewrite bool_decide_eq_false_2.
    - rewrite bind_eq, exec_call. reflexivity.
    - rewrite !elem_of_cons, elem_of_nil. tauto. }
  unfold eval, exec. rewrite Hfin. split; reflexivity.
Qed.

End RunEnds.

(** ** The counter over runs *)

Section RunKeepsCounter.

Variable gather : list nat -> M unit.
Variable get_task_if_exists : nat -> M (option nat).

Hypothesis gather_counter : forall tasks w,
  _counter (self w) <= _counter (self (exec (gather tasks) w)).
Hypothesis get_task_counter : forall node w,
  _counter (self w) <= _counter (self (exec (get_task_if_exists node) w)).

(** X14. A run does not reset the global counter: when the tasks do not lower
    it, [run] and [async_run] return with a counter that is at least the one
    they found, so that over several runs it only grows. *)
Theorem run_keeps_counter (iters iters' : Z) (w : World) :
  _counter (self w)
  <= _counter (self (exec (async_run gather get_task_if_exists iters) w))
  /\ _counter (self w)
     <= _counter (self (exec (run gather get_task_if_exists iters) w))
  /\ _counter (self w)
     <= _counter (self (exec (run gather get_task_if_exists iters')
                          (exec (run gather get_task_if_exists iters) w))).
Proof.
  assert (Hrun : forall n w0,
    _counter (self w0)
    <= _counter (self (exec (run gather get_task_if_exists n) w0))).
  { intros n w0. unfold run. rewrite exec_bind, exec_state.
    apply async_run_counter; assumption. }
  split; [apply async_run_counter; assumption|].
  split; [apply Hrun|].
  pose proof (Hrun iters w).
  pose proof (Hrun iters' (exec (run gather get_task_if_exists iters) w)).
  lia.
Qed.

End RunKeepsCounter.

(** ** The pipeline state and the two signals *)

(** Calls that leave the state, the gate and the stop flag alone. *)
Lemma consistent_kept w w' :
  state_of w' = state_of w ->
  _resume_event (self w') = _resume_event (self w) ->
  _stop_event (self w') = _stop_event (self w) ->
  consistent w -> consistent w'.
Proof.
  unfold consistent. intros -> -> ->. tauto.
Qed.

Lemma consistent_pause w : consistent w -> consistent (exec pause w).
Proof.
  intros Hc. rewrite pause_eq. destruct (_resume_event (self w)) eqn:E;
    [|exact Hc].
  unfold consistent. cbn. repeat split; discriminate.
Qed.

Lemma consistent_resume w : consistent w -> consistent (exec resume w).
Proof.
  intros Hc. rewrite resume_eq. destruct (_resume_event (self w)) eqn:E;
    [exact Hc|].
  unfold consistent. cbn. repeat split; discriminate.
Qed.

Lemma consistent_stop w : consistent (exec stop w).
Proof.
  rewrite stop_eq. unfold consistent. cbn.
  split; [discriminate|]. split; [discriminate|].
  intros _. split; [apply resume_gate_open | reflexivity].
Qed.

Lemma consistent_apply_op o r r' :
  apply_op o r = Some r' -> consistent (world r) -> consistent (world r').
Proof.
  destruct o; cbn [apply_op]; intros H Hc.
  - injection H as <-. apply consistent_pause, Hc.
  - injection H as <-. apply consistent_resume, Hc.
  - injection H as <-. apply consistent_stop.
  - injection H as <-. exact Hc.
  - injection H as <-. cbn [world].
    destruct (decide (verbose_of (world r) = mode)) as [Hv|Hv].
    + rewrite set_verbose_mode_same by exact Hv. exact Hc.
    + destruct (set_verbose_mode_changed mode (world r) Hv) as (Hs & _).
      cbn zeta in Hs.
      apply (consistent_kept (world r)); [| | |exact Hc];
        unfold state_of; rewrite Hs; reflexivity.
  - destruct (_resume_event (self (world r))) eqn:E; injection H as <-;
      cbn [world].
    + rewrite before_component_hook_open by exact E. exact Hc.
    + rewrite before_component_hook_enter_eq, E. exact Hc.
  - destruct (wake component (waiters r)); [|discriminate].
    injection H as <-. exact Hc.
  - injection H as <-. cbn [world]. rewrite after_component_hook_eq.
    destruct (_stop_event (self (world r))); [exact Hc|]. cbn zeta.
    destruct (bool_decide _ && bool_decide _); exact Hc.
  - injection H as <-. exact Hc.
Qed.

(** X15. The state the pipeline reports agrees with its two signals and
    stays so under every call that reaches the scheduler, a before-hook that
    goes on at a closed gate included: in [PAUSED] the gate is closed, in
    [RUNNING] it is open, and in [FORCED_STOP] the gate is open and the stop
    flag is set. *)
Theorem state_agrees_with_signals (ops : list Op) (r r' : RunState) :
  consistent (world r) ->
  run_ops ops r = Some r' ->
  (state_of (world r') = PipelineState.PAUSED ->
   _resume_event (self (world r')) = false)
  /\ (state_of (world r') = PipelineState.RUNNING ->
      _resume_event (self (world r')) = true)
  /\ (state_of (world r') = PipelineState.FORCED_STOP ->
      _resume_event (self (world r')) = true
      /\ _stop_event (self (world r')) = true).
Proof.
  intros Hc Hrun. change (consistent (world r')).
  revert r Hc Hrun. induction ops as [|o ops IH]; intros r Hc Hrun.
  - injection Hrun as <-. exact Hc.
  - cbn [run_ops] in Hrun.
    destruct (apply_op o r) as [r1|] eqn:Ho; [|discriminate].
    apply (IH r1); [|exact Hrun].
    exact (consistent_apply_op o r r1 Ho Hc).
Qed.

(** ** The log *)

Lemma logged_app v l1 l2 : logged v l1 -> logged v l2 -> logged v (l1 ++ l2).
Proof.
  unfold logged, log_count, transition_count.
  rewrite !List.filter_app, !length_app. destruct v; lia.
Qed.

Lemma logged_transition v s msg :
  logged v (Transition s :: log_lines v s msg).
Proof. destruct v, msg; reflexivity. Qed.

Lemma logged_nil v : logged v [].
Proof. destruct v; reflexivity. Qed.

Lemma logged_quiet v e :
  is_log e = false -> is_transition e = false -> logged v [e].
Proof.
  intros H1 H2. unfold logged, log_count, transition_count. cbn.
  rewrite H1, H2. destruct v; reflexivity.
Qed.

Lemma grows_refl w : grows w w.
Proof.
  split; [reflexivity|]. exists []. rewrite app_nil_r.
  split; [reflexivity | apply logged_nil].
Qed.

Lemma grows_trans w1 w2 w3 : grows w1 w2 -> grows w2 w3 -> grows w1 w3.
Proof.
  intros (Hv1 & a1 & Ht1 & Hl1) (Hv2 & a2 & Ht2 & Hl2).
  split; [congruence|]. exists (a1 ++ a2).
  split; [rewrite Ht2, Ht1, <- app_assoc; reflexivity|].
  apply logged_app; [exact Hl1|]. rewrite <- Hv1. exact Hl2.
Qed.

Lemma grows_quiet w e :
  is_log e = false -> is_transition e = false ->
  grows w (mkWorld (self w) (heap w) (trace w ++ [e])).
Proof.
  intros H1 H2. split; [reflexivity|]. exists [e].
  split; [reflexivity | apply logged_quiet; assumption].
Qed.

Lemma grows_call s msg w : grows w (transitioned s msg w).
Proof.
  split; [reflexivity|]. eexists. split; [reflexivity|].
  apply logged_transition.
Qed.

Lemma grows_fields w f h :
  verbose_of (mkWorld (f (self w)) h (trace w)) = verbose_of w ->
  grows w (mkWorld (f (self w)) h (trace w)).
Proof.
  intros Hv. split; [exact Hv|]. exists []. cbn. rewrite app_nil_r.
  split; [reflexivity | apply logged_nil].
Qed.

Lemma grows_set_state component s w :
  grows w (exec (component_set_state component s) w).
Proof.
  rewrite component_set_state_eq. split; [reflexivity|]. eexists.
  split; [reflexivity|]. apply logged_quiet; reflexivity.
Qed.

Lemma grows_pause w : grows w (exec pause w).
Proof.
  rewrite pause_eq. destruct (_resume_event (self w)); [|apply grows_refl].
  apply (grows_trans _ (transitioned PipelineState.PAUSED None w));
    [apply grows_call|].
  rewrite resume_event_clear_eq. split; [reflexivity|]. eexists.
  split; [reflexivity|]. apply logged_quiet; reflexivity.
Qed.

Lemma grows_resume w : grows w (exec resume w).
Proof.
  rewrite resume_eq. destruct (_resume_event (self w)); [apply grows_refl|].
  apply (grows_trans _ (transitioned PipelineState.RUNNING None w));
    [apply grows_call|].
  rewrite resume_event_set_eq. split; [reflexivity|]. eexists.
  split; [reflexivity|]. apply logged_quiet; reflexivity.
Qed.

Lemma grows_stop w : grows w (exec stop w).
Proof.
  rewrite stop_eq.
  apply (grows_trans _ (exec resume w)); [apply grows_resume|].
  apply (grows_trans _ (exec stop_event_set (exec resume w)));
    [|apply grows_call].
  rewrite stop_event_set_eq. split; [reflexivity|]. eexists.
  split; [reflexivity|]. apply logged_quiet; reflexivity.
Qed.

Lemma grows_apply_op o r r' :
  sets_verbose_mode o = false -> apply_op o r = Some r' ->
  grows (world r) (world r').
Proof.
  destruct o; cbn [apply_op sets_verbose_mode]; intros Hm H;
    try discriminate Hm.
  - injection H as <-. apply grows_pause.
  - injection H as <-. apply grows_resume.
  - injection H as <-. apply grows_stop.
  - injection H as <-. cbn [world]. rewrite add_nodes_eq.
    apply grows_fields. reflexivity.
  - destruct (_resume_event (self (world r))) eqn:E; injection H as <-;
      cbn [world].
    + rewrite before_component_hook_open by exact E. apply grows_set_state.
    + rewrite before_component_hook_enter_eq, E. apply grows_set_state.
  - destruct (wake component (waiters r)); [|discriminate].
    injection H as <-. apply grows_set_state.
  - injection H as <-. cbn [world]. rewrite after_component_hook_eq.
    destruct (_stop_event (self (world r))); [apply grows_set_state|].
    cbn zeta. set (w1 := with_self _ (world r)).
    assert (H1 : grows (world r) w1) by (apply grows_fields; reflexivity).
    destruct (bool_decide _ && bool_decide _); [|exact H1].
    apply (grows_trans _ w1); [exact H1 | apply grows_set_state].
  - injection H as <-. apply (grows_fields (world r) (fun p => p)).
    reflexivity.
Qed.

Lemma silent_set_state component s w :
  silent w (exec (component_set_state component s) w).
Proof.
  rewrite component_set_state_eq. eexists. split; [reflexivity|].
  split; reflexivity.
Qed.

Lemma silent_same_trace w w' : trace w' = trace w -> silent w w'.
Proof.
  intros Ht. exists []. rewrite app_nil_r. split; [exact Ht|].
  split; reflexivity.
Qed.

(** X16. The history only grows, and as long as the verbose mode is not
    changed the scheduler logs nothing when the mode is [DISABLED] and
    exactly one line for each transition of the pipeline state otherwise.
    The hooks and [add_nodes] never log and make no transition, whatever the
    mode. *)
Theorem log_follows_transitions (ops : list Op) (r r' : RunState) :
  forallb (fun o => negb (sets_verbose_mode o)) ops = true ->
  run_ops ops r = Some r' ->
  (verbose_of (world r') = verbose_of (world r)
   /\ exists added,
        trace (world r') = trace (world r) ++ added
        /\ log_count added
           = match verbose_of (world r) with
             | VerboseMode.DISABLED => 0%nat
             | _ => transition_count added
             end)
  /\ (forall component components w,
        silent w (exec (before_component_hook_enter component) w)
        /\ silent w (exec (before_component_hook_leave component) w)
        /\ silent w (exec (after_component_hook component) w)
        /\ silent w (exec (add_nodes components) w)).
Proof.
  intros Hops Hrun. split.
  - change (grows (world r) (world r')).
    revert r Hops Hrun. induction ops as [|o ops IH]; intros r Hops Hrun.
    + injection Hrun as <-. apply grows_refl.
    + cbn [run_ops] in Hrun. cbn [forallb] in Hops.
      apply andb_true_iff in Hops as [Ho Hops].
      apply negb_true_iff in Ho.
      destruct (apply_op o r) as [r1|] eqn:Hr1; [|discriminate].
      apply (grows_trans _ (world r1)).
      * exact (grows_apply_op o r r1 Ho Hr1).
      * exact (IH r1 Hops Hrun).
  - intros component components w. split; [|split; [|split]].
    + rewrite before_component_hook_enter_eq.
      destruct (_resume_event (self w));
        [apply silent_same_trace; reflexivity | apply silent_set_state].
    + apply silent_set_state.
    + rewrite after_component_hook_eq.
      destruct (_stop_event (self w)); [apply silent_set_state|]. cbn zeta.
      destruct (bool_decide _ && bool_decide _).
      * rewrite component_set_state_eq. eexists.
        split; [reflexivity|]. split; reflexivity.
      * apply silent_same_trace. reflexivity.
    + rewrite add_nodes_eq. apply silent_same_trace. reflexivity.
Qed.

(** * The further properties at sample worlds *)

Lemma set_verbose_mode_broadcast_witness :
  verbose_of World_two ≠ VerboseMode.COMPONENT
  /\ Component.verbose
       (heap (exec (set_verbose_mode VerboseMode.COMPONENT) World_two) 0%nat)
     = true.
Proof.
  assert (Hv : verbose_of World_two ≠ VerboseMode.COMPONENT) by discriminate.
  split; [exact Hv|].
  destruct (set_verbose_mode_broadcast VerboseMode.COMPONENT World_two Hv)
    as (_ & _ & _ & _ & Hin & _).
  rewrite Hin; [reflexivity|].
  apply (bool_decide_unpack _). vm_compute. exact I.
Defined.

Lemma set_verbose_mode_idempotent_witness :
  verbose_of World_init = VerboseMode.DISABLED
  /\ exec (set_verbose_mode VerboseMode.DISABLED) World_init = World_init.
Proof.
  split; [reflexivity|].
  destruct (set_verbose_mode_idempotent VerboseMode.DISABLED [] World_init)
    as (H & _).
  apply H. reflexivity.
Defined.

Lemma hooks_frame_witness :
  heap (exec (after_component_hook 0) World_bounded) 1%nat
  = heap World_bounded 1%nat.
Proof.
  destruct (hooks_frame 0 World_bounded) as (_ & _ & _ & _ & _ & H & _).
  apply H. discriminate.
Defined.

Lemma stop_is_sticky_witness :
  run_ops (CallStop :: sample_stop_ops) Run_bounded = Some sample_stop_end
  /\ Component.state
       (heap (exec (after_component_hook 0) (world sample_stop_end)) 0%nat)
     = ComponentState.FORCED_STOP.
Proof.
  split; [vm_compute; reflexivity|].
  destruct (stop_is_sticky sample_stop_ops 0 Run_bounded sample_stop_end
              ltac:(vm_compute; reflexivity)) as (_ & H & _).
  exact H.
Defined.


Lemma async_run_launch_witness :
  _nodes (self World_one) ≠ ∅
  /\ exists w0,
       async_run gather_none no_task 2 World_one
       = await_and_finish gather_none no_task
           (elements (_nodes (self World_one))) w0
       /\ state_of w0 = PipelineState.RUNNING.
Proof.
  assert (Hne : _nodes (self World_one) ≠ ∅).
  { apply (bool_decide_unpack _). vm_compute. exact I. }
  split; [exact Hne|].
  destruct (async_run_launch gather_none no_task 2 World_one Hne)
    as (w0 & Hrun & _ & _ & _ & Hstate & _).
  exists w0. split; [exact Hrun | exact Hstate].
Defined.

Lemma async_run_ends_witness :
  _nodes (self World_one) ≠ ∅
  /\ eval (async_run gather_none no_task 0) (exec stop World_one)
     = PipelineState.ENDED.
Proof.
  assert (Hne : _nodes (self World_one) ≠ ∅).
  { apply (bool_decide_unpack _). vm_compute. exact I. }
  split; [exact Hne|].
  assert (Hne' : _nodes (self (exec stop World_one)) ≠ ∅).
  { apply (bool_decide_unpack _). vm_compute. exact I. }
  destruct (async_run_ends gather_none no_task
              (fun _ w Ha Hb => conj Ha Hb) (fun _ _ => eq_refl)
              0 (exec stop World_one) Hne') as [H _].
  exact H.
Defined.

Lemma run_keeps_counter_witness :
  _counter (self World_bounded)
  <= _counter (self (exec (run gather_none no_task 0) World_bounded)).
Proof.
  destruct (run_keeps_counter gather_none no_task
              (fun _ w => Z.le_refl _) (fun _ w => Z.le_refl _)
              0 0 World_bounded) as (_ & H & _).
  exact H.
Defined.

Lemma state_agrees_with_signals_witness :
  consistent (world Run_bounded)
  /\ run_ops (CallStop :: sample_stop_ops) Run_bounded = Some sample_stop_end
  /\ (state_of (world sample_stop_end) = PipelineState.PAUSED ->
      _resume_event (self (world sample_stop_end)) = false).
Proof.
  assert (Hc : consistent (world Run_bounded)).
  { unfold consistent. cbn. repeat split; discriminate. }
  split; [exact Hc|]. split; [vm_compute; reflexivity|].
  destruct (state_agrees_with_signals (CallStop :: sample_stop_ops)
              Run_bounded sample_stop_end Hc
              ltac:(vm_compute; reflexivity)) as (H & _).
  exact H.
Defined.

Lemma log_follows_transitions_witness :
  forallb (fun o => negb (sets_verbose_mode o)) sample_log_ops = true
  /\ run_ops sample_log_ops Run_bounded = Some sample_log_end
  /\ verbose_of (world sample_log_end) = VerboseMode.PIPELINE.
Proof.
  split; [reflexivity|]. split; [vm_compute; reflexivity|].
  destruct (log_follows_transitions sample_log_ops Run_bounded
              sample_log_end eq_refl ltac:(vm_compute; reflexivity))
    as ((H & _) & _).
  exact H.
Defined.
